(** * q-ffprobe: the cached ffprobe wrapper of [ffprobe.misc.js]

    A shallow embedding of the module returned by [exportFFprobe]: the field
    extractor [ffprobe_success], the failure handler [ffprobe_fail], the
    asynchronous entry point [ffprobe], the blocking entry point
    [ffprobe.sync] and the [setInterval] callback [clearFFprobeCache],
    followed by the properties of the cache that the specification states.

    Modelling conventions.
    - [ffprobe_cache] is a plain object used as a dictionary: its own
      properties are a [gmap string Value], and it has a prototype, which
      is [Object.prototype] until an assignment to [__proto__] replaces
      it; reads, assignments and the call of [hasOwnProperty] go through
      the prototype chain, as in the source.
    - What a read of the cache can give is a stored value or a function
      inherited from a prototype ([Native]); no function is ever stored.
    - An [Error] or an array that has become the prototype of the cache
      shows the properties that the host describes, as data properties.
    - Strings are sequences of bytes; case conversion and white space are
      those of ASCII.
    - Numbers are the integer-valued ones ([Z]); [NaN] is [None]. *)

From Stdlib Require Import ZArith Lia Bool Ascii String List.
From stdpp Require Import base option list gmap strings fin_maps.

Set Warnings "-register-all".

Local Open Scope string_scope.
Local Open Scope list_scope.
Local Open Scope Z_scope.

(** ** JavaScript data *)

(** What [JSON.parse] can produce, plus [undefined] (a missing property). *)
Inductive Json : Type :=
| JUndef
| JNull
| JBool (b : bool)
| JNum (n : Z)
| JStr (s : string)
| JArr (items : list Json)
| JObj (props : list (string * Json)).

(** [!!v]: every value is truthy but [undefined], [null], [false], [0]
    and the empty string. *)
Definition truthy (v : Json) : bool :=
  match v with
  | JUndef | JNull => false
  | JBool b => b
  | JNum n => negb (n =? 0)
  | JStr s => negb (String.eqb s "")
  | JArr _ | JObj _ => true
  end.

(** [a || b] *)
Definition js_or (a b : Json) : Json := if truthy a then a else b.

Infix "|||" := js_or (at level 50, left associativity).

Fixpoint assoc (k : string) (props : list (string * Json)) : Json :=
  match props with
  | [] => JUndef
  | (k', v) :: rest => if String.eqb k k' then v else assoc k rest
  end.

(** [o.k] on a value that is neither [null] nor [undefined]: a property of
    an object, [undefined] on anything else. *)
Definition get (o : Json) (k : string) : Json :=
  match o with
  | JObj props => assoc k props
  | _ => JUndef
  end.

(** [o[k] = v] on the property list of an object: an existing property is
    updated in place, a new one is added at the end. *)
Fixpoint obj_set (k : string) (v : Json) (props : list (string * Json))
  : list (string * Json) :=
  match props with
  | [] => [(k, v)]
  | (k', v') :: rest =>
      if String.eqb k k' then (k', v) :: rest else (k', v') :: obj_set k v rest
  end.

Definition Array_isArray (v : Json) : bool :=
  match v with JArr _ => true | _ => false end.

(** ** Strings *)

Definition lower_ascii (c : ascii) : ascii :=
  let n := N_of_ascii c in
  if ((65 <=? n) && (n <=? 90))%N then ascii_of_N (n + 32) else c.

(** [String.prototype.toLowerCase] *)
Fixpoint toLowerCase (s : string) : string :=
  match s with
  | EmptyString => EmptyString
  | String c r => String (lower_ascii c) (toLowerCase r)
  end.

(** [s.split(',')[0]]: what stands before the first comma. *)
Fixpoint split_comma_first (s : string) : string :=
  match s with
  | EmptyString => EmptyString
  | String c r => if Ascii.eqb c "," then EmptyString else String c (split_comma_first r)
  end.

Definition newline : string := String (ascii_of_N 10) "".

Definition digit_char (d : Z) : ascii := ascii_of_N (48 + Z.to_N d).

Fixpoint digits_of (fuel : nat) (n : Z) (acc : string) : string :=
  match fuel with
  | O => acc
  | S fuel' =>
      let acc' := String (digit_char (n mod 10)) acc in
      if n <? 10 then acc' else digits_of fuel' (n / 10) acc'
  end.

(** [Number.prototype.toString] on an integer-valued number. *)
Definition Number_toString (n : Z) : string :=
  if n <? 0 then String "-" (digits_of (Z.to_nat (Z.log2 (- n)) + 1) (- n) "")
  else digits_of (Z.to_nat (Z.log2 n) + 1) n "".

Definition join_comma (parts : list string) : string :=
  match parts with
  | [] => ""
  | p :: rest => fold_left (fun acc q => acc +:+ "," +:+ q) rest p
  end.

(** The abstract operation [ToString]. *)
Fixpoint ToString (v : Json) : string :=
  match v with
  | JUndef => "undefined"
  | JNull => "null"
  | JBool true => "true"
  | JBool false => "false"
  | JNum n => Number_toString n
  | JStr s => s
  | JArr items =>
      join_comma
        (List.map (fun x => match x with
                            | JUndef | JNull => ""
                            | _ => ToString x
                            end) items)
  | JObj _ => "[object Object]"
  end.

(** ** [parseInt] *)

Definition is_whitespace (c : ascii) : bool :=
  let n := N_of_ascii c in
  ((n =? 32) || ((9 <=? n) && (n <=? 13)))%N.

Fixpoint skip_whitespace (s : string) : string :=
  match s with
  | String c r => if is_whitespace c then skip_whitespace r else s
  | EmptyString => EmptyString
  end.

Definition digit_value (radix : Z) (c : ascii) : option Z :=
  let n := Z.of_N (N_of_ascii c) in
  let d :=
    if (48 <=? n) && (n <=? 57) then Some (n - 48)
    else if (97 <=? n) && (n <=? 122) then Some (n - 87)
    else if (65 <=? n) && (n <=? 90) then Some (n - 55)
    else None in
  match d with
  | Some k => if k <? radix then Some k else None
  | None => None
  end.

(** The longest prefix of digits, read in [radix]; [acc] is [None] until
    the first digit has been seen. *)
Fixpoint read_digits (radix : Z) (s : string) (acc : option Z) : option Z :=
  match s with
  | EmptyString => acc
  | String c r =>
      match digit_value radix c with
      | Some d => read_digits radix r (Some (default 0 acc * radix + d))
      | None => acc
      end
  end.

(** [parseInt(v)] with no radix argument; [None] is [NaN]. *)
Definition parseInt (v : Json) : option Z :=
  let s := skip_whitespace (ToString v) in
  let '(neg, s) :=
    match s with
    | String "-" r => (true, r)
    | String "+" r => (false, r)
    | _ => (false, s)
    end in
  let '(radix, s) :=
    match s with
    | String "0" (String "x" r) => (16, r)
    | String "0" (String "X" r) => (16, r)
    | _ => (10, s)
    end in
  match read_digits radix s None with
  | Some n => Some (if neg then - n else n)
  | None => None
  end.

(** [parseInt(v) || null] *)
Definition parseInt_or_null (v : Json) : Json :=
  match parseInt v with
  | Some n => JNum n ||| JNull
  | None => JNull
  end.

(** ** [Date] *)

Definition msPerDay : Z := 86400000.

(** Days between 1970-01-01 and the given day of the proleptic Gregorian
    calendar ([MakeDay]). *)
Definition days_from_civil (y m d : Z) : Z :=
  let y' := if m <=? 2 then y - 1 else y in
  let era := y' / 400 in
  let yoe := y' - era * 400 in
  let doy := (153 * (if 2 <? m then m - 3 else m + 9) + 2) / 5 + d - 1 in
  let doe := yoe * 365 + yoe / 4 - yoe / 100 + doy in
  era * 146097 + doe - 719468.

(** The year in which the given day number falls. *)
Definition year_from_days (z : Z) : Z :=
  let z' := z + 719468 in
  let era := z' / 146097 in
  let doe := z' - era * 146097 in
  let yoe := (doe - doe / 1460 + doe / 36524 - doe / 146096) / 365 in
  let doy := doe - (365 * yoe + yoe / 4 - yoe / 100) in
  let mp := (5 * doy + 2) / 153 in
  if mp <? 10 then yoe + era * 400 else yoe + era * 400 + 1.

Definition YearFromTime (t : Z) : Z := year_from_days (t / msPerDay).

Definition TimeClip (t : Z) : option Z :=
  if Z.abs t <=? 8640000000000000 then Some t else None.

Definition is_leap (y : Z) : bool :=
  ((y mod 4 =? 0) && negb (y mod 100 =? 0)) || (y mod 400 =? 0).

Definition days_in_month (y m : Z) : Z :=
  if m =? 2 then (if is_leap y then 29 else 28)
  else if (m =? 4) || (m =? 6) || (m =? 9) || (m =? 11) then 30
  else 31.

(** Exactly [n] decimal digits at the head of [s]. *)
Fixpoint read_fixed (n : nat) (s : string) (acc : Z) : option (Z * string) :=
  match n with
  | O => Some (acc, s)
  | S n' =>
      match s with
      | String c r =>
          match digit_value 10 c with
          | Some d => read_fixed n' r (acc * 10 + d)
          | None => None
          end
      | EmptyString => None
      end
  end.

(** The date-only forms [YYYY], [YYYY-MM] and [YYYY-MM-DD] of the date
    time string format, which denote midnight UTC; only dates that exist
    in the calendar are read here. *)
Definition parse_iso_date (s : string) : option Z :=
  match read_fixed 4 s 0 with
  | None => None
  | Some (y, EmptyString) => Some (days_from_civil y 1 1 * msPerDay)
  | Some (y, String "-" s1) =>
      match read_fixed 2 s1 0 with
      | None => None
      | Some (m, rest) =>
          if (1 <=? m) && (m <=? 12) then
            match rest with
            | EmptyString => Some (days_from_civil y m 1 * msPerDay)
            | String "-" s2 =>
                match read_fixed 2 s2 0 with
                | Some (d, EmptyString) =>
                    if (1 <=? d) && (d <=? days_in_month y m)
                    then Some (days_from_civil y m d * msPerDay)
                    else None
                | _ => None
                end
            | _ => None
            end
          else None
      end
  | Some _ => None
  end.

(** ** Errors, metadata records and the values of the cache *)

(** [InvocationError] and [ExtractionError] are the two kinds of the
    specification; [TypeError] is raised by the runtime inside the
    extractor; [OtherError] is any error object made elsewhere. *)
Inductive ErrKind : Type :=
| InvocationError
| ExtractionError
| TypeError
| OtherError.

(** An [Error] object as [log.makeError(message, ...extra)] builds it;
    [err_where] is what [.somewhere(path)] records. *)
Record JsError : Type := mkError {
  err_kind : ErrKind;
  err_message : Json;
  err_extra : list Json;
  err_cause : option string;
  err_where : option string
}.

(** The object literal that [ffprobe_success] stores and returns. *)
Module Meta.
Record t : Type := mk {
  codec : Json;
  format : Json;
  size : Json;
  bit_rate : Json;
  sample_rate : Json;
  bit_depth : Json;
  channels : Json;
  duration : Json;
  title : Json;
  album : Json;
  artist : Json;
  year : Json;
  genre : Json
}.
End Meta.

(** What a property of [ffprobe_cache] can hold, and what the two entry
    points hand back: plain data, a metadata record, an [Error], or a
    promise (a handle into the promise table of the state). *)
Inductive Value : Type :=
| VData (j : Json)
| VMeta (m : Meta.t)
| VError (e : JsError)
| VPromise (p : nat).

(** What reading a property can give besides: a function or an object
    of the runtime, reached through the prototype chain and known by its
    name ([Object.prototype.toString], for instance). *)
Inductive Answer : Type :=
| Val (v : Value)
| Native (name : string).

Coercion Val : Value >-> Answer.

(** [!x] *)
Definition falsy (x : Answer) : bool :=
  match x with
  | Val (VData j) => negb (truthy j)
  | _ => false
  end.

(** [x instanceof Error] *)
Definition instanceof_Error (x : Answer) : bool :=
  match x with Val (VError _) => true | _ => false end.

(** [cX.varType(x)=='promise'] *)
Definition is_promise (x : Answer) : bool :=
  match x with Val (VPromise _) => true | _ => false end.

(** [typeof v == 'object' && v !== null], or a promise, a record, an
    [Error]: what can be a prototype. *)
Definition is_object (v : Value) : bool :=
  match v with
  | VData (JObj _) | VData (JArr _) => true
  | VData _ => false
  | VMeta _ | VError _ | VPromise _ => true
  end.

(** The three states of the specification's cache entry. *)
Definition is_Pending (x : Value) : Prop := exists p, x = VPromise p.
Definition is_Resolved (x : Value) : Prop := exists m, x = VMeta m.
Definition is_Failed (x : Value) : Prop := exists e, x = VError e.

(** Normal completion or a [throw]. *)
Inductive Completion (E A : Type) : Type :=
| Return (a : A)
| Throw (e : E).
Arguments Return {E A} & a.
Arguments Throw {E A} & e.
Arguments pair {A B} & x y.
Arguments Some {A} & a.

Definition bind {E A B} (c : Completion E A) (k : A -> Completion E B)
  : Completion E B :=
  match c with
  | Return a => k a
  | Throw e => Throw e
  end.

Notation "'let*' x ':=' c 'in' k" := (bind c (fun x => k))
  (at level 10, x name, c at level 100, k at level 200).

Definition type_error (msg : string) : JsError :=
  mkError TypeError (JStr msg) [] None None.

(** ** The host: what the module is given and does not define

    [tryJsonParse] is [cX.tryJsonParse] of the injected [scope];
    [Date_parse_impl] is what [Date.parse] answers on a string that is not
    one of the date-only forms above (a time value, or [None] for [NaN]);
    [LocalTZA] is the offset of local time from UTC, in milliseconds, at a
    given time value; [exotic v k] is what the property [k] reads as on
    an [Error] or on an array [v], on itself or on its prototypes short
    of [Object.prototype] ([None] when it has none there); [log.makeError]
    and the class of its errors belong to the injected logger. *)
Class Host : Type := {
  tryJsonParse : Json -> Json;
  Date_parse_impl : string -> option Z;
  LocalTZA : Z -> Z;
  exotic : Value -> string -> option Answer
}.

Section Dates.
Context `{Host}.

Definition Date_parse (s : string) : option Z :=
  match parse_iso_date s with
  | Some t => Some t
  | None => t ← Date_parse_impl s; TimeClip t
  end.

(** The time value of [new Date(v)]. *)
Definition Date_new (v : Json) : option Z :=
  match v with
  | JUndef => None
  | JNull => Some 0
  | JBool b => Some (if b then 1 else 0)
  | JNum n => TimeClip n
  | JStr _ | JArr _ | JObj _ => Date_parse (ToString v)
  end.

(** [(new Date(v)).getFullYear()] *)
Definition Date_getFullYear (v : Json) : option Z :=
  t ← Date_new v; Some (YearFromTime (t + LocalTZA t)).

(** [(new Date(v)).getFullYear() || null] *)
Definition year_or_null (v : Json) : Json :=
  match Date_getFullYear v with
  | Some y => JNum y ||| JNull
  | None => JNull
  end.
End Dates.

(** A host in the UTC time zone whose [Date.parse] knows the date-only
    forms and nothing else, and whose JSON parser is handed in. *)
Definition utc_host (parse : Json -> Json) : Host :=
  {| tryJsonParse := parse; Date_parse_impl := fun _ => None; LocalTZA := fun _ => 0;
     exotic := fun _ _ => None |}.

(** ** The helpers of [cX] *)

(** Modelled from the spec: [cX.toLower(v, dflt)] belongs to the injected
    library; a string is put in lower case, anything else is replaced by
    the default. *)
Definition toLower (v dflt : Json) : Json :=
  match v with
  | JStr s => JStr (toLowerCase s)
  | _ => dflt
  end.

(** Modelled from the spec: [cX.keysToLower(o)] belongs to the injected
    library; it builds a new object by assigning every property of [o]
    under its lower-cased key, and refuses what is not an object. *)
Definition keysToLower (o : Json) : Completion JsError Json :=
  match o with
  | JObj props =>
      Return (JObj (fold_left (fun acc kv => obj_set (toLowerCase (fst kv)) (snd kv) acc)
                              props []))
  | _ => Throw (type_error "keysToLower: expected an object")
  end.

(** Modelled from the spec: [cX.limitString(s, n)] belongs to the injected
    library; the text is cut to a bounded length. *)
Definition limitString (s : string) (n : nat) : string := String.substring 0 n s.

(** [v.split(',')[0]]: defined on strings, a [TypeError] on [null]. *)
Definition split_first (v : Json) : Completion JsError Json :=
  match v with
  | JStr s => Return (JStr (split_comma_first s))
  | _ => Throw (type_error "Cannot read properties of null (reading 'split')")
  end.

(** ** The cache object

    [ffprobe_cache] is made by [{}]: an object with properties of its own
    and a prototype, [Object.prototype] at first.  The prototype is
    replaced when an object or [null] is assigned to [__proto__], through
    the accessor that [Object.prototype] has under that name. *)
Inductive Proto : Type :=
| ProtoObject
| ProtoNull
| ProtoValue (v : Value).

Record Cache : Type := mkCache {
  own : gmap string Value;
  proto : Proto
}.

(** [{}] *)
Definition empty_cache : Cache := mkCache ∅ ProtoObject.

(** What looking a property up along a prototype chain ends with: nothing,
    a data property, or the accessor [__proto__] of [Object.prototype]. *)
Inductive Found : Type :=
| NotFound
| Data (a : Answer)
| ProtoAccessor.

Definition member (k : string) (names : list string) : bool :=
  existsb (String.eqb k) names.

(** The functions that [Object.prototype] has under string keys. *)
Definition Object_prototype_names : list string :=
  ["constructor"; "hasOwnProperty"; "isPrototypeOf"; "propertyIsEnumerable";
   "toLocaleString"; "toString"; "valueOf"; "__defineGetter__"; "__defineSetter__";
   "__lookupGetter__"; "__lookupSetter__"].

Definition Promise_prototype_names : list string :=
  ["constructor"; "then"; "catch"; "finally"].

Definition Object_prototype_find (k : string) : Found :=
  if String.eqb k "__proto__" then ProtoAccessor
  else if member k Object_prototype_names
       then Data (Native ("Object.prototype." +:+ k))
       else NotFound.

(** The own properties of the object literal of [ffprobe_success]. *)
Definition record_field (k : string) (m : Meta.t) : option Json :=
  if String.eqb k "codec" then Some (Meta.codec m)
  else if String.eqb k "format" then Some (Meta.format m)
  else if String.eqb k "size" then Some (Meta.size m)
  else if String.eqb k "bit_rate" then Some (Meta.bit_rate m)
  else if String.eqb k "sample_rate" then Some (Meta.sample_rate m)
  else if String.eqb k "bit_depth" then Some (Meta.bit_depth m)
  else if String.eqb k "channels" then Some (Meta.channels m)
  else if String.eqb k "duration" then Some (Meta.duration m)
  else if String.eqb k "title" then Some (Meta.title m)
  else if String.eqb k "album" then Some (Meta.album m)
  else if String.eqb k "artist" then Some (Meta.artist m)
  else if String.eqb k "year" then Some (Meta.year m)
  else if String.eqb k "genre" then Some (Meta.genre m)
  else None.

Definition has_key (k : string) (props : list (string * Json)) : bool :=
  existsb (fun kv => String.eqb (fst kv) k) props.

Section CacheObject.
Context `{Host}.

(** The property [k] looked up from the object [v] on: on a record and on
    a parsed object, their own properties and then [Object.prototype]; on
    a promise, [Promise.prototype] and then [Object.prototype]; on an
    [Error] and on an array, what the host knows of them and then
    [Object.prototype], an [Error] or an array having no [hasOwnProperty]
    and no [__proto__] of its own.  Primitive values are no objects. *)
Definition value_find (v : Value) (k : string) : Found :=
  match v with
  | VMeta m =>
      match record_field k m with
      | Some j => Data (VData j)
      | None => Object_prototype_find k
      end
  | VData (JObj props) =>
      if has_key k props then Data (VData (assoc k props))
      else Object_prototype_find k
  | VPromise _ =>
      if member k Promise_prototype_names
      then Data (Native ("Promise.prototype." +:+ k))
      else Object_prototype_find k
  | VError _ | VData (JArr _) =>
      if String.eqb k "__proto__" || String.eqb k "hasOwnProperty"
      then Object_prototype_find k
      else match exotic v k with
           | Some a => Data a
           | None => Object_prototype_find k
           end
  | VData _ => NotFound
  end.

(** The property [k] looked up from the prototype on. *)
Definition inherited (pr : Proto) (k : string) : Found :=
  match pr with
  | ProtoObject => Object_prototype_find k
  | ProtoNull => NotFound
  | ProtoValue v => value_find v k
  end.

(** [ffprobe_cache[k]]: an own property, or what the chain has; the
    accessor [__proto__] answers with the prototype. *)
Definition cache_get (c : Cache) (k : string) : Answer :=
  match own c !! k with
  | Some v => Val v
  | None =>
      match inherited (proto c) k with
      | Data a => a
      | ProtoAccessor =>
          match proto c with
          | ProtoObject => Native "Object.prototype"
          | ProtoValue v => Val v
          | ProtoNull => Val (VData JUndef)
          end
      | NotFound => Val (VData JUndef)
      end
  end.

(** [ffprobe_cache[k] = v]: an own property is written; without one, a
    data property found along the chain, or none, makes the assignment
    create an own property, and the accessor [__proto__] makes it replace
    the prototype when [v] is an object or [null] and do nothing
    otherwise. *)
Definition cache_set (k : string) (v : Value) (c : Cache) : Cache :=
  match own c !! k with
  | Some _ => mkCache (<[k := v]> (own c)) (proto c)
  | None =>
      match inherited (proto c) k with
      | ProtoAccessor =>
          if is_object v then mkCache (own c) (ProtoValue v)
          else match v with
               | VData JNull => mkCache (own c) ProtoNull
               | _ => c
               end
      | NotFound | Data _ => mkCache (<[k := v]> (own c)) (proto c)
      end
  end.

(** [ffprobe_cache.hasOwnProperty] is the method of [Object.prototype]:
    no own property shadows it and the chain leads to it. *)
Definition hasOwn_callable (c : Cache) : bool :=
  match own c !! "hasOwnProperty" with
  | Some _ => false
  | None =>
      match inherited (proto c) "hasOwnProperty" with
      | Data (Native name) => String.eqb name "Object.prototype.hasOwnProperty"
      | _ => false
      end
  end.

(** [ffprobe_cache.hasOwnProperty(k)]: a [TypeError] when what is found
    under [hasOwnProperty] is not that function. *)
Definition hasOwnProperty (c : Cache) (k : string) : Completion JsError bool :=
  if hasOwn_callable c then Return (bool_decide (is_Some (own c !! k)))
  else Throw (type_error "ffprobe_cache.hasOwnProperty is not a function").
End CacheObject.

(** ** The field extractor *)

Section Extractor.
Context `{Host}.

(** The body of the [try] block of [ffprobe_success], up to the object
    literal; [info] has passed the two checks before it. *)
Definition extract (info : Json) : Completion JsError Meta.t :=
  let s0 := match get info "streams" with
            | JArr (s :: _) => s
            | _ => JUndef
            end in
  let* s := keysToLower s0 in
  let* f := keysToLower (get info "format") in
  let* t := (if truthy (get f "tags") then keysToLower (get f "tags")
             else Return (JObj [])) in
  let codec := toLower (get s "codec_name") JNull in
  let* format := split_first (toLower (get f "format_name") JNull) in
  Return {|
    Meta.codec := codec;
    Meta.format := format;
    Meta.size := parseInt_or_null (get f "size");
    Meta.bit_rate := parseInt_or_null (get f "bit_rate");
    Meta.sample_rate := parseInt_or_null (get s "sample_rate");
    Meta.bit_depth := parseInt_or_null (get s "bits_per_raw_sample");
    Meta.channels := parseInt_or_null (get s "channels");
    Meta.duration := parseInt_or_null (get s "duration");
    Meta.title := get t "title" ||| get t "name" ||| JNull;
    Meta.album := get t "album" ||| JNull;
    Meta.artist := get t "artist" ||| get t "albumartist" ||| get t "album_artist"
                   ||| get t "composer" ||| JNull;
    Meta.year := year_or_null (get t "year" ||| get t "date");
    Meta.genre := get t "genre" ||| JNull
  |}.

(** [!Array.isArray(info.streams) || !info.streams.length || !info.format] *)
Definition incomplete (info : Json) : bool :=
  negb (Array_isArray (get info "streams"))
  || match get info "streams" with JArr [] => true | _ => false end
  || negb (truthy (get info "format")).

Definition unexpected_value (path : string) (obj : Json) : JsError :=
  mkError ExtractionError
    (JStr ("ffprobe returned unexpected value for path '" +:+ path +:+ "':"))
    [obj] None None.

Definition missing_data (path : string) (info : Json) : JsError :=
  mkError ExtractionError
    (JStr ("ffprobe didn't return all requested data for '" +:+ path +:+ "':"))
    [info] None None.

Definition failed_extracting (info : Json) (err : JsError) : JsError :=
  mkError ExtractionError
    (JStr "Failed while extracting info from ffprobe result.")
    [info] (Some (ToString (err_message err))) None.

(** [ffprobe_success(path, obj)]: the outcome and the cache it leaves.
    Reading [obj.stdout] is a [TypeError] when [obj] is [null] or
    [undefined]. *)
Definition ffprobe_success (path : string) (obj : Json) (cache : Cache)
  : Completion Answer Answer * Cache :=
  match obj with
  | JUndef =>
      (Throw (VError (type_error "Cannot read properties of undefined (reading 'stdout')")),
       cache)
  | JNull =>
      (Throw (VError (type_error "Cannot read properties of null (reading 'stdout')")),
       cache)
  | _ =>
      let info := tryJsonParse (get obj "stdout") in
      if negb (truthy info) then
        (Throw (VError (unexpected_value path obj)), cache)
      else if incomplete info then
        (Throw (VError (missing_data path info)), cache)
      else
        match extract info with
        | Return m =>
            let cache' := cache_set path (VMeta m) cache in
            (Return (cache_get cache' path), cache')
        | Throw err => (Throw (VError (failed_extracting info err)), cache)
        end
  end.

(** [ffprobe_fail(path, obj)]: the error is stored, then what the cache
    has under [path] is thrown. *)
Definition ffprobe_fail (path : string) (obj : Json) (cache : Cache)
  : Completion Answer Answer * Cache :=
  match obj with
  | JUndef =>
      (Throw (VError (type_error "Cannot read properties of undefined (reading 'stderr')")),
       cache)
  | JNull =>
      (Throw (VError (type_error "Cannot read properties of null (reading 'stderr')")),
       cache)
  | _ =>
      let extra :=
        if truthy (get obj "stderr")
        then [JStr (limitString ("STDERR:" +:+ newline +:+ ToString (get obj "stderr")) 500)]
        else [] in
      let err := mkError InvocationError (get obj "error") extra None (Some path) in
      let cache' := cache_set path (VError err) cache in
      (Throw (cache_get cache' path), cache')
  end.
End Extractor.

(** The sample of the specification: one [aac] stream in an [hls]
    container. *)
Definition sample_info : Json :=
  JObj [("streams", JArr [JObj [("codec_name", JStr "aac"); ("sample_rate", JStr "44100")]]);
        ("format", JObj [("format_name", JStr "hls,applehttp"); ("size", JStr "1024");
                         ("tags", JObj [("Artist", JStr "X"); ("Date", JStr "2001-05-01")])])].

(** ** The module state and its entry points *)

(** A promise of the table: [Pending path] is the promise stored by
    [ffprobe] for [path] while the tool runs and the [then] callbacks have
    not been called. *)
Inductive PromiseState : Type :=
| Pending (path : string)
| Fulfilled (v : Answer)
| Rejected (e : Answer).

Inductive Mode : Type := Async | Blocking.

(** The tool is started with an argument list; later it ends. *)
Inductive Mark : Type :=
| Started (m : Mode) (args : list string) (timeout : Json)
| Finished (m : Mode) (args : list string).

Definition getArgs (path : string) : list string :=
  ["-v"; "error"; "-select_streams"; "a:0"; "-show_streams"; "-show_format";
   "-of"; "json"; path].

Record State : Type := mkState {
  ffprobe_cache : Cache;
  promises : list PromiseState;
  trace : list Mark;
  clock : Z
}.

Definition initial : State := mkState empty_cache [] [] 0.

(** What the blocking collaborator [ffprobeSync] does when it is called:
    it returns a value or throws one. *)
Definition SyncOutcome : Type := Completion Value Value.

(** How the promise of [ffprobePromise] settles: resolved or rejected with
    an object. *)
Definition AsyncOutcome : Type := Completion Json Json.

(** The period handed to [setInterval], in milliseconds. *)
Definition clear_interval : Z := 60000.

(** How often the timer fires while the clock goes from [t] to [t + dt]:
    it fires at every positive multiple of the period. *)
Definition timer_fires (t dt : Z) : Z :=
  (t + dt) / clear_interval - t / clear_interval.

(** What can happen to the module, one thing at a time. *)
Inductive Event : Type :=
| EvProbe (path : string) (timeout : Json)
| EvSync (path : string) (timeout : Json) (out : SyncOutcome)
| EvSettle (p : nat) (out : AsyncOutcome)
| EvElapse (dt : Z).

Section EntryPoints.
Context `{Host}.

(** [ffprobe(path, timeout)]: the call of [hasOwnProperty] may throw;
    without an own property the tool is started, the promise is assigned
    and [ffprobe_cache[path]] is returned; an own [Error] is returned as
    a rejected promise, anything else as it is. *)
Definition ffprobe (path : string) (timeout : Json) (st : State)
  : Completion Answer Answer * State :=
  match hasOwnProperty (ffprobe_cache st) path with
  | Throw err => (Throw (VError err), st)
  | Return false =>
      let p := length (promises st) in
      let cache' := cache_set path (VPromise p) (ffprobe_cache st) in
      (Return (cache_get cache' path),
       mkState cache'
               (promises st ++ [Pending path])
               (trace st ++ [Started Async (getArgs path) timeout])
               (clock st))
  | Return true =>
      let x := cache_get (ffprobe_cache st) path in
      if instanceof_Error x then
        (Return (VPromise (length (promises st))),
         mkState (ffprobe_cache st) (promises st ++ [Rejected x])
                 (trace st) (clock st))
      else (Return x, st)
  end.

(** [ffprobe.sync(path, timeout)]; [out] is what [ffprobeSync] does if it
    is called. *)
Definition ffprobe_sync (path : string) (timeout : Json) (out : SyncOutcome)
    (st : State) : Completion Answer Answer * State :=
  let x := cache_get (ffprobe_cache st) path in
  if falsy x || is_promise x then
    let x' := match out with Return v => v | Throw err => err end in
    let st' := mkState (cache_set path x' (ffprobe_cache st)) (promises st)
                       (trace st ++ [Started Blocking (getArgs path) timeout;
                                     Finished Blocking (getArgs path)])
                       (clock st) in
    (if instanceof_Error x' then Throw x' else Return x', st')
  else
    (if instanceof_Error x then Throw x else Return x, st).

(** The tool behind promise [p] ends: the matching callback of
    [.then(obj=>ffprobe_success(path,obj), obj=>ffprobe_fail(path,obj))]
    runs and the promise settles with what it returns or throws. *)
Definition settle (p : nat) (out : AsyncOutcome) (st : State) : State :=
  match promises st !! p with
  | Some (Pending path) =>
      let '(c, cache') :=
        match out with
        | Return obj => ffprobe_success path obj (ffprobe_cache st)
        | Throw obj => ffprobe_fail path obj (ffprobe_cache st)
        end in
      mkState cache'
              (<[p := match c with
                      | Return v => Fulfilled v
                      | Throw e => Rejected e
                      end]> (promises st))
              (trace st ++ [Finished Async (getArgs path)])
              (clock st)
  | _ => st
  end.

(** The callback of [setInterval]: [ffprobe_cache={}] *)
Definition clearFFprobeCache (st : State) : State :=
  mkState empty_cache (promises st) (trace st) (clock st).

(** [dt] milliseconds pass with no call in between. *)
Definition elapse (dt : Z) (st : State) : State :=
  let st' := mkState (ffprobe_cache st) (promises st) (trace st) (clock st + dt) in
  if 0 <? timer_fires (clock st) dt then clearFFprobeCache st' else st'.

(** One event; a call answers with a completion. *)
Definition step (ev : Event) (st : State)
  : option (Completion Answer Answer) * State :=
  match ev with
  | EvProbe path timeout =>
      let '(c, st') := ffprobe path timeout st in (Some c, st')
  | EvSync path timeout out =>
      let '(c, st') := ffprobe_sync path timeout out st in (Some c, st')
  | EvSettle p out => (None, settle p out st)
  | EvElapse dt => (None, elapse dt st)
  end.

(** A sequence of events; the answers are listed in the order of the
    events. *)
Fixpoint run (evs : list Event) (st : State)
  : list (option (Completion Answer Answer)) * State :=
  match evs with
  | [] => ([], st)
  | ev :: rest =>
      let '(r, st1) := step ev st in
      let '(rs, st2) := run rest st1 in
      (r :: rs, st2)
  end.
End EntryPoints.

(** ** Counting what runs *)

(** The resource an invocation targets is the last argument. *)
Definition target (args : list string) : string := List.last args "".

Definition counts (only_async : bool) (id : string) (m : Mode) (args : list string) : bool :=
  String.eqb (target args) id
  && (negb only_async || match m with Async => true | Blocking => false end).

Definition mark_delta (only_async : bool) (id : string) (mk : Mark) : Z :=
  match mk with
  | Started m args _ => if counts only_async id m args then 1 else 0
  | Finished m args => if counts only_async id m args then -1 else 0
  end.


Definition async_in_flight (id : string) (tr : list Mark) : Z :=
  fold_right (fun mk n => mark_delta true id mk + n) 0 tr.

(** The number of invocations on [id] started along [tr]. *)
Definition started (id : string) (tr : list Mark) : nat :=
  length (List.filter (fun mk => match mk with
                                 | Started _ args _ => String.eqb (target args) id
                                 | Finished _ _ => false
                                 end) tr).

(** ** Vocabulary of the statements *)

(** The six numeric fields of the record, where each is read from (the
    lower-cased stream [s] or the lower-cased format block [f]) and where
    it lands. *)
Inductive NumField : Type :=
| Size | BitRate | SampleRate | BitDepth | Channels | Duration.

Definition source (fld : NumField) (s f : Json) : Json :=
  match fld with
  | Size => get f "size"
  | BitRate => get f "bit_rate"
  | SampleRate => get s "sample_rate"
  | BitDepth => get s "bits_per_raw_sample"
  | Channels => get s "channels"
  | Duration => get s "duration"
  end.

Definition project (fld : NumField) (m : Meta.t) : Json :=
  match fld with
  | Size => Meta.size m
  | BitRate => Meta.bit_rate m
  | SampleRate => Meta.sample_rate m
  | BitDepth => Meta.bit_depth m
  | Channels => Meta.channels m
  | Duration => Meta.duration m
  end.

(** The first entry of [info.streams]. *)
Definition first_stream (info : Json) : Json :=
  match get info "streams" with
  | JArr (s :: _) => s
  | _ => JUndef
  end.

(** [o] is an object with a property that is [k] up to case. *)
Definition has_field (k : string) (o : Json) : bool :=
  match o with
  | JObj props => existsb (fun kv => String.eqb (toLowerCase (fst kv)) k) props
  | _ => false
  end.

(** [JSON.stringify] on strings without characters to escape. *)
Definition quoted (s : string) : string :=
  String (ascii_of_N 34) s +:+ String (ascii_of_N 34) "".

Fixpoint JSON_stringify (v : Json) : string :=
  match v with
  | JUndef | JNull => "null"
  | JBool true => "true"
  | JBool false => "false"
  | JNum n => Number_toString n
  | JStr s => quoted s
  | JArr items => "[" +:+ join_comma (List.map JSON_stringify items) +:+ "]"
  | JObj props =>
      "{" +:+ join_comma (List.map (fun kv => quoted (fst kv) +:+ ":" +:+ JSON_stringify (snd kv))
                                   props) +:+ "}"
  end.

(** A parser that knows the text of [info] and nothing else, and the host
    that has it; the object the tool resolves with when it prints that
    text. *)
Definition parser_of (info : Json) (v : Json) : Json :=
  match v with
  | JStr s => if String.eqb s (JSON_stringify info) then info else JUndef
  | _ => JUndef
  end.

Definition host_of (info : Json) : Host := utc_host (parser_of info).

Definition printed (info : Json) : list (string * Json) :=
  [("stdout", JStr (JSON_stringify info)); ("stderr", JStr "")].

(** One stream whose channel count reads as zero, in a block whose size
    reads as zero. *)
Definition zero_info : Json :=
  JObj [("streams", JArr [JObj [("codec_name", JStr "mp3"); ("channels", JStr "0")]]);
        ("format", JObj [("format_name", JStr "mp3"); ("size", JStr "0")])].

(** A stream and a format block that states a size and no name. *)
Definition nameless_info : Json :=
  JObj [("streams", JArr [JObj [("codec_name", JStr "mp3")]]);
        ("format", JObj [("size", JStr "10")])].

Definition zero_meta : Meta.t :=
  Meta.mk (JStr "mp3") (JStr "mp3") JNull JNull JNull JNull JNull JNull
          JNull JNull JNull JNull JNull.

(** How promise [p] has settled, if it has. *)
Definition outcome (st : State) (p : nat) : option (Completion Answer Answer) :=
  match promises st !! p with
  | Some (Fulfilled v) => Some (Return v)
  | Some (Rejected e) => Some (Throw e)
  | _ => None
  end.

Definition is_probe_of (id : string) (ev : Event) : bool :=
  match ev with
  | EvProbe path _ => String.eqb path id
  | _ => false
  end.

(** The number of calls [ffprobe(id, _)] among the events. *)
Definition probes (id : string) (evs : list Event) : nat :=
  length (List.filter (is_probe_of id) evs).

(** What may happen between concurrent calls of [ffprobe(id, _)] without
    the tool of [id] ending: calls of [ffprobe], and calls of
    [ffprobe.sync] on other identifiers. *)
Definition concurrent_with (id : string) (ev : Event) : bool :=
  match ev with
  | EvProbe _ _ => true
  | EvSync path _ _ => negb (String.eqb path id)
  | EvSettle _ _ | EvElapse _ => false
  end.

(** The timer fires while the event happens. *)
Definition fires (ev : Event) (st : State) : bool :=
  match ev with
  | EvElapse dt => 0 <? timer_fires (clock st) dt
  | _ => false
  end.

(** Some promise of the table is pending for [path]. *)
Definition pending_for (path : string) (ps : list PromiseState) : bool :=
  existsb (fun s => match s with
                    | Pending q => String.eqb q path
                    | _ => false
                    end) ps.

(** The event replaces entries of the cache other than by a call: the tool
    of [id] ends, or the timer fires. *)
Definition disturbs (id : string) (ev : Event) (st : State) : bool :=
  match ev with
  | EvProbe _ _ | EvSync _ _ _ => false
  | EvSettle p _ =>
      match promises st !! p with
      | Some (Pending path) => String.eqb path id
      | _ => false
      end
  | EvElapse dt => 0 <? timer_fires (clock st) dt
  end.

Section Quiet.
Context `{Host}.

(** A run none of whose events disturbs [id] in the state it meets. *)
Fixpoint quiet (id : string) (evs : list Event) (st : State) : bool :=
  match evs with
  | [] => true
  | ev :: rest => negb (disturbs id ev st) && quiet id rest (snd (step ev st))
  end.

(** A run during which the timer does not fire: calls, ends of the tool,
    and time that passes short of the next clear. *)
Fixpoint calm (evs : list Event) (st : State) : bool :=
  match evs with
  | [] => true
  | ev :: rest => negb (fires ev st) && calm rest (snd (step ev st))
  end.
End Quiet.

(** An [Error] as the blocking collaborator throws it on a timeout, and
    the object the tool's promise is rejected with. *)
Definition timeout_error : JsError :=
  mkError OtherError (JStr "spawnSync ffprobe ETIMEDOUT") [] None None.

Definition rejection : Json :=
  JObj [("error", JStr "Command failed"); ("stderr", JStr "No such file or directory")].

Definition sample_meta : Meta.t :=
  Meta.mk (JStr "aac") (JStr "hls") (JNum 1024) JNull (JNum 44100) JNull JNull JNull
          JNull JNull (JStr "X") (JNum 2001) JNull.


(** An identifier that names neither the accessor [__proto__] nor the
    method [hasOwnProperty]. *)
Definition plain (id : string) : Prop := id <> "__proto__" /\ id <> "hasOwnProperty".

Definition plain_event (ev : Event) : bool :=
  match ev with
  | EvProbe path _ | EvSync path _ _ =>
      negb (String.eqb path "__proto__") && negb (String.eqb path "hasOwnProperty")
  | EvSettle _ _ | EvElapse _ => true
  end.

(** The prototype of the cache is one whose properties this file spells
    out: [Object.prototype], [null], a record, a promise or a parsed
    object, and no [Error] and no array, which the host describes. *)
Definition tame (c : Cache) : bool :=
  match proto c with
  | ProtoValue (VError _) | ProtoValue (VData (JArr _)) => false
  | _ => true
  end.

(** The event is no call on [id]. *)
Definition avoids (id : string) (ev : Event) : bool :=
  match ev with
  | EvProbe path _ | EvSync path _ _ => negb (String.eqb path id)
  | EvSettle _ _ | EvElapse _ => true
  end.

(** [st'] has the own entry of [id], the invocations started on [id]
    and the promises of [st]. *)
Definition preserves (id : string) (st st' : State) : Prop :=
  own (ffprobe_cache st') !! id = own (ffprobe_cache st) !! id
  /\ started id (trace st') = started id (trace st)
  /\ (forall p s, promises st !! p = Some s -> promises st' !! p = Some s).

(** What holds of [id] in every state reached by calls on identifiers
    other than [__proto__] without the timer firing: a promise pending
    for [id] has [id] as an own property of the cache, no two promises
    are pending for it, and the trace counts them. *)
Record Inv (id : string) (st : State) : Prop := mkInv {
  inv_cached : forall p,
    promises st !! p = Some (Pending id) -> is_Some (own (ffprobe_cache st) !! id);
  inv_unique : forall p q,
    promises st !! p = Some (Pending id) -> promises st !! q = Some (Pending id) -> p = q;
  inv_count :
    async_in_flight id (trace st) = if pending_for id (promises st) then 1 else 0;
  inv_prefix : forall n, async_in_flight id (take n (trace st)) <= 1
}.

(** The object the tool resolves with when it prints the sample, as the
    blocking collaborator hands it back, and one whose output is no JSON. *)
Definition sample_obj : Json := JObj (printed sample_info).

Definition garbage_obj : Json :=
  JObj [("stdout", JStr "<html>Bad Gateway</html>"); ("stderr", JStr "")].

(** Runs and states of the examples below, on the host that parses the
    sample. *)
Definition interleaved_calls : list Event :=
  [EvProbe "b.mp3" JUndef; EvProbe "a.mp3" (JNum 100);
   EvSync "b.mp3" JUndef (Throw (VError timeout_error));
   EvProbe "a.mp3" JUndef; EvProbe "a.mp3" (JNum 5)].



(** Two calls on the identifier [__proto__], one after the other; a call
    on [hasOwnProperty] followed by a call on another identifier. *)
Definition proto_calls : list Event :=
  [EvProbe "__proto__" JUndef; EvProbe "__proto__" JUndef].

Definition shadowing_calls : list Event :=
  [EvProbe "hasOwnProperty" JUndef; EvProbe "a.mp3" JUndef].


Definition after_resolution : State :=
  snd (@run (host_of sample_info)
         [EvProbe "a.mp3" JUndef; EvSettle 0 (Return sample_obj)] initial).

Definition after_bad_output : State :=
  snd (@run (host_of sample_info)
         [EvProbe "a.mp3" JUndef; EvSettle 0 (Return garbage_obj)] initial).


(** ** Further vocabulary *)

(** The four fields read from the tags by a chain of [||]. *)
Inductive TextField : Type :=
| Title | Album | Artist | Genre.

Definition project_text (fld : TextField) (m : Meta.t) : Json :=
  match fld with
  | Title => Meta.title m
  | Album => Meta.album m
  | Artist => Meta.artist m
  | Genre => Meta.genre m
  end.

(** The lower-cased tags that the extractor reads: those of the format
    block, or the empty object when the block has none. *)
Definition tags_of (info : Json) : Completion JsError Json :=
  let* f := keysToLower (get info "format") in
  if truthy (get f "tags") then keysToLower (get f "tags") else Return (JObj []).

Definition null_or_truthy (v : Json) : Prop := v = JNull \/ truthy v = true.

Definition null_or_nonzero (v : Json) : Prop :=
  v = JNull \/ exists n, v = JNum n /\ n <> 0.

Fixpoint has_comma (s : string) : bool :=
  match s with
  | EmptyString => false
  | String c r => Ascii.eqb c "," || has_comma r
  end.

(** A string that [toLowerCase] leaves as it is. *)
Definition lower_string (v : Json) : Prop :=
  exists s, v = JStr s /\ toLowerCase s = s.

Fixpoint all_digits (s : string) : bool :=
  match s with
  | EmptyString => true
  | String c r =>
      match digit_value 10 c with
      | Some _ => all_digits r
      | None => false
      end
  end.

(** A host five hours behind UTC. *)
Definition west_host (parse : Json -> Json) : Host :=
  {| tryJsonParse := parse; Date_parse_impl := fun _ => None;
     LocalTZA := fun _ => -18000000; exotic := fun _ _ => None |}.

(** The year [y], from 0 to 9999, written with four digits. *)
Definition four_digits (y : Z) : string :=
  String (digit_char (y / 1000 mod 10))
    (String (digit_char (y / 100 mod 10))
       (String (digit_char (y / 10 mod 10))
          (String (digit_char (y mod 10)) ""))).

(** What is checked, year by year, of a tag that is a year alone: its
    four digits are read as midnight UTC of its first of January, the
    day that starts then is in that year and the day before in the year
    before. *)
Definition year_tag_ok (y : Z) : bool :=
  match parse_iso_date (four_digits y) with
  | Some t =>
      (t =? days_from_civil y 1 1 * msPerDay)
      && (year_from_days (days_from_civil y 1 1) =? y)
      && (year_from_days (days_from_civil y 1 1 - 1) =? y - 1)
  | None => false
  end.

Definition four_digit_years : list Z :=
  List.map Z.of_nat (seq 0 (Z.to_nat 10000)).

(** A result whose tags hold the year alone, and one with no tags. *)
Definition year_info : Json :=
  JObj [("streams", JArr [JObj [("codec_name", JStr "FLAC")]]);
        ("format", JObj [("format_name", JStr "flac"); ("duration", JStr "0.52");
                         ("tags", JObj [("DATE", JStr "2001"); ("TITLE", JStr "")])])].

Definition bare_info : Json :=
  JObj [("streams", JArr [JObj [("codec_name", JStr "PCM_S16LE"); ("duration", JStr "0.52")]]);
        ("format", JObj [("format_name", JStr "WAV,w64")])].

(** States and runs of the further examples. *)
Definition after_empty_output : State :=
  snd (@ffprobe_sync (host_of sample_info) "a.mp3" JUndef (Return (VData (JStr ""))) initial).

Definition pending_state : State :=
  snd (@ffprobe (host_of sample_info) "a.mp3" JUndef initial).

Definition clobbered_run : list Event :=
  [EvProbe "a.mp3" JUndef; EvSync "a.mp3" JUndef (Return (VData (JStr "")));
   EvProbe "toString" JUndef; EvElapse 30000;
   EvProbe "b.mp3" JUndef; EvSettle 2 (Throw rejection)].

(** A run that leaves the entry of "a.mp3" alone, and the state in which
    the tool of "a.mp3" has failed. *)
Definition idle_calls : list Event :=
  [EvProbe "b.mp3" JUndef; EvSync "a.mp3" (JNum 100) (Return (VData sample_obj));
   EvElapse 30000; EvProbe "__proto__" JUndef].

Definition after_rejection : State :=
  @settle (host_of sample_info) 0 (Throw rejection) pending_state.

(** The records of [year_info], five hours behind UTC, and of
    [bare_info]. *)
Definition year_meta : Meta.t :=
  Meta.mk (JStr "flac") (JStr "flac") JNull JNull JNull JNull JNull JNull
          JNull JNull JNull (JNum 2000) JNull.

Definition bare_meta : Meta.t :=
  Meta.mk (JStr "pcm_s16le") (JStr "wav") JNull JNull JNull JNull JNull JNull
          JNull JNull JNull JNull JNull.

(** ** The cache object: properties *)

Section CacheFacts.
Context `{Host}.

Lemma Object_prototype_find_accessor k :
  Object_prototype_find k = ProtoAccessor -> k = "__proto__".
Proof.
  unfold Object_prototype_find.
  destruct (String.eqb_spec k "__proto__") as [->|Hne]; [done|].
  by destruct (member k Object_prototype_names).
Qed.

Lemma value_find_accessor v k : value_find v k = ProtoAccessor -> k = "__proto__".
Proof.
  destruct v as [j|m|e|p]; cbn [value_find].
  - destruct j; try discriminate.
    + destruct (String.eqb k "__proto__" || String.eqb k "hasOwnProperty");
        [apply Object_prototype_find_accessor|].
      destruct (exotic _ k); [discriminate|apply Object_prototype_find_accessor].
    + destruct (has_key k props); [discriminate|apply Object_prototype_find_accessor].
  - destruct (record_field k m); [discriminate|apply Object_prototype_find_accessor].
  - destruct (String.eqb k "__proto__" || String.eqb k "hasOwnProperty");
      [apply Object_prototype_find_accessor|].
    destruct (exotic _ k); [discriminate|apply Object_prototype_find_accessor].
  - destruct (member k Promise_prototype_names);
      [discriminate|apply Object_prototype_find_accessor].
Qed.

(** Only [__proto__] leads to the accessor. *)
Lemma inherited_accessor pr k : inherited pr k = ProtoAccessor -> k = "__proto__".
Proof.
  destruct pr; cbn; [apply Object_prototype_find_accessor|discriminate|
                     apply value_find_accessor].
Qed.

(** An assignment writes no own property but the one it names. *)
Lemma cache_set_own_other k v c k' :
  k' <> k -> own (cache_set k v c) !! k' = own c !! k'.
Proof.
  intros Hne. unfold cache_set.
  destruct (own c !! k); cbn; [by rewrite lookup_insert_ne|].
  destruct (inherited (proto c) k); cbn; try (by rewrite lookup_insert_ne).
  destruct (is_object v); [done|]. by destruct v as [[]| | |].
Qed.

(** An assignment under a name other than [__proto__] makes or writes
    the own property and leaves the prototype. *)
Lemma cache_set_plain k v c :
  k <> "__proto__" ->
  cache_set k v c = mkCache (<[k := v]> (own c)) (proto c).
Proof.
  intros Hne. unfold cache_set.
  destruct (own c !! k); [done|].
  destruct (inherited (proto c) k) eqn:Hf; try done.
  by apply inherited_accessor in Hf.
Qed.

(** An own property is written in place. *)
Lemma cache_set_owned k v c :
  is_Some (own c !! k) ->
  cache_set k v c = mkCache (<[k := v]> (own c)) (proto c).
Proof. intros [w Hw]. unfold cache_set. by rewrite Hw. Qed.

(** No assignment removes an own property. *)
Lemma cache_set_keeps k v c k' :
  is_Some (own c !! k') -> is_Some (own (cache_set k v c) !! k').
Proof.
  intros Hs. destruct (decide (k' = k)) as [->|Hne].
  - rewrite (cache_set_owned k v c Hs). cbn. rewrite lookup_insert_eq. eauto.
  - by rewrite cache_set_own_other.
Qed.

Lemma cache_get_own c k v : own c !! k = Some v -> cache_get c k = Val v.
Proof. unfold cache_get. by intros ->. Qed.

(** A promise, a record or an [Error] that has just been assigned is
    what the cache then reads under that name, [__proto__] included. *)
Lemma cache_get_set k v c :
  (exists p, v = VPromise p) \/ (exists m, v = VMeta m) \/ (exists e, v = VError e) ->
  cache_get (cache_set k v c) k = Val v.
Proof.
  intros Hv.
  assert (Hobj : is_object v = true) by (destruct Hv as [[? ->]|[[? ->]|[? ->]]]; done).
  assert (Hfind : value_find v "__proto__" = ProtoAccessor)
    by (destruct Hv as [[? ->]|[[? ->]|[? ->]]]; reflexivity).
  unfold cache_set.
  destruct (own c !! k) eqn:Hk.
  - apply cache_get_own. cbn. apply lookup_insert_eq.
  - destruct (inherited (proto c) k) eqn:Hf.
    + apply cache_get_own. cbn. apply lookup_insert_eq.
    + apply cache_get_own. cbn. apply lookup_insert_eq.
    + apply inherited_accessor in Hf as ->. rewrite Hobj.
      unfold cache_get. cbn. by rewrite Hk, Hfind.
Qed.

Lemma hasOwn_callable_set k v c :
  k <> "__proto__" -> k <> "hasOwnProperty" ->
  hasOwn_callable (cache_set k v c) = hasOwn_callable c.
Proof.
  intros Hp Hh. rewrite (cache_set_plain k v c Hp). unfold hasOwn_callable. cbn.
  by rewrite lookup_insert_ne.
Qed.

End CacheFacts.

(** ** The field extractor: properties *)

Section ExtractorFacts.
Context `{Host}.

Lemma parseInt_or_null_zero v : parseInt v = Some 0 -> parseInt_or_null v = JNull.
Proof. unfold parseInt_or_null. intros ->. reflexivity. Qed.

Lemma parseInt_or_null_nan v : parseInt v = None -> parseInt_or_null v = JNull.
Proof. unfold parseInt_or_null. intros ->. reflexivity. Qed.

Lemma parseInt_or_null_never_zero v : parseInt_or_null v <> JNum 0.
Proof.
  unfold parseInt_or_null, js_or.
  destruct (parseInt v) as [n|]; [|discriminate].
  cbn. destruct (Z.eqb_spec n 0) as [->|Hn]; cbn; [discriminate|].
  intros [=]. contradiction.
Qed.

(** What a successful run of the [try] block has gone through. *)
Lemma extract_Return info m :
  extract info = Return m ->
  exists s f t fmt,
    keysToLower (first_stream info) = Return s
    /\ keysToLower (get info "format") = Return f
    /\ (if truthy (get f "tags") then keysToLower (get f "tags") else Return (JObj []))
       = Return t
    /\ toLower (get f "format_name") JNull = JStr fmt
    /\ Meta.codec m = toLower (get s "codec_name") JNull
    /\ Meta.format m = JStr (split_comma_first fmt)
    /\ (forall fld, project fld m = parseInt_or_null (source fld s f))
    /\ Meta.artist m = (get t "artist" ||| get t "albumartist" ||| get t "album_artist"
                        ||| get t "composer" ||| JNull)
    /\ Meta.year m = year_or_null (get t "year" ||| get t "date").
Proof.
  unfold extract. fold (first_stream info).
  destruct (keysToLower (first_stream info)) as [s|e] eqn:Hs; [|discriminate].
  destruct (keysToLower (get info "format")) as [f|e] eqn:Hf; [|discriminate].
  cbn [bind].
  destruct (if truthy (get f "tags") then keysToLower (get f "tags") else Return (JObj []))
    as [t|e] eqn:Ht; [|discriminate].
  cbn [bind].
  destruct (toLower (get f "format_name") JNull) as [| | | |fmt| |] eqn:Hfmt;
    cbn [split_first bind]; try discriminate.
  intros [= <-]. exists s, f, t, fmt.
  repeat match goal with |- _ /\ _ => split end;
    try reflexivity; try assumption.
  intros []; reflexivity.
Qed.

Lemma assoc_obj_set k k' v props :
  assoc k (obj_set k' v props) = if String.eqb k k' then v else assoc k props.
Proof.
  induction props as [|[k0 v0] rest IH]; cbn.
  - destruct (String.eqb k k'); reflexivity.
  - destruct (String.eqb_spec k' k0) as [->|Hne]; cbn.
    + destruct (String.eqb k k0); reflexivity.
    + destruct (String.eqb_spec k k0) as [->|Hne'].
      * destruct (String.eqb_spec k0 k'); congruence.
      * apply IH.
Qed.

Lemma assoc_lowered k props acc :
  existsb (fun kv => String.eqb (toLowerCase (fst kv)) k) props = false ->
  assoc k (fold_left (fun acc kv => obj_set (toLowerCase (fst kv)) (snd kv) acc) props acc)
  = assoc k acc.
Proof.
  revert acc. induction props as [|[k0 v0] rest IH]; intros acc Hex; cbn in *.
  - reflexivity.
  - apply orb_false_iff in Hex as [Hk Hrest].
    rewrite IH by exact Hrest. rewrite assoc_obj_set.
    rewrite String.eqb_sym, Hk. reflexivity.
Qed.

(** A field that the block lacks up to case is [undefined] after
    [keysToLower]. *)
Lemma keysToLower_lacks k o f :
  has_field k o = false -> keysToLower o = Return f -> get f k = JUndef.
Proof.
  destruct o; cbn; try discriminate.
  intros Hex [= <-]. cbn. by rewrite assoc_lowered.
Qed.

(** A record is returned only out of the [try] block, and is then what
    the cache holds. *)
Lemma ffprobe_success_Return path obj cache (v : Answer) cache' :
  ffprobe_success path obj cache = (Return v, cache') ->
  exists m, v = VMeta m /\ cache' = cache_set path (VMeta m) cache
            /\ extract (tryJsonParse (get obj "stdout")) = Return m
            /\ truthy (tryJsonParse (get obj "stdout")) = true
            /\ incomplete (tryJsonParse (get obj "stdout")) = false.
Proof.
  unfold ffprobe_success.
  set (info := tryJsonParse (get obj "stdout")).
  destruct obj; try discriminate;
    (destruct (truthy info) eqn:Ht; cbn [negb]; [|discriminate];
     destruct (incomplete info) eqn:Hi; [discriminate|];
     destruct (extract info) as [m|e] eqn:He; [|discriminate];
     rewrite cache_get_set by eauto;
     intros [= <- <-]; exists m; auto).
Qed.

(** Whatever [ffprobe_success] throws is an [Error]; the cache is then
    left as it was. *)
Lemma ffprobe_success_Throw path obj cache (e : Answer) cache' :
  ffprobe_success path obj cache = (Throw e, cache') ->
  cache' = cache /\ exists err, e = VError err.
Proof.
  unfold ffprobe_success.
  set (info := tryJsonParse (get obj "stdout")).
  destruct obj; try (intros [= <- <-]; eauto; fail);
    (destruct (truthy info); cbn [negb]; [|intros [= <- <-]; eauto];
     destruct (incomplete info); [intros [= <- <-]; eauto|];
     destruct (extract info); [discriminate|intros [= <- <-]; eauto]).
Qed.

(** Output that does not parse (the parser answers something falsy), or
    that parses to a value without a non-empty [streams] array or
    without a [format] block, makes [ffprobe_success] throw an
    [ExtractionError]; nothing is stored. *)
Lemma ffprobe_success_rejects path props cache :
  let obj := JObj props in
  let info := tryJsonParse (get obj "stdout") in
  truthy info = false \/ incomplete info = true ->
  exists err, ffprobe_success path obj cache = (Throw (VError err), cache)
              /\ err_kind err = ExtractionError.
Proof.
  intros obj info Hbad. unfold ffprobe_success. cbn [obj].
  fold obj. fold info.
  destruct (truthy info) eqn:Ht; cbn [negb].
  - destruct Hbad as [|Hi]; [discriminate|]. rewrite Hi. eauto.
  - eauto.
Qed.
End ExtractorFacts.

Section ExtractorClaims.
Context `{Host}.

Lemma year_of_sample_date (delta : Z) :
  - msPerDay < delta < msPerDay -> YearFromTime (988675200000 + delta) = 2001.
Proof.
  unfold YearFromTime, msPerDay. intros Hd.
  assert (Hday : (988675200000 + delta) / 86400000 = 11442
                 \/ (988675200000 + delta) / 86400000 = 11443).
  { Z.div_mod_to_equations. lia. }
  destruct Hday as [-> | ->]; reflexivity.
Qed.

(** C7. The sample of the specification (one stream with codec name
    "aac" and sample rate "44100"; format name "hls,applehttp", size
    "1024", tags Artist "X" and Date "2001-05-01") is extracted, stored
    and returned as a record with codec "aac", format "hls", sample rate
    44100, size 1024, artist "X" and year 2001, in every time zone. *)
Theorem sample_is_extracted (path : string) (props : list (string * Json))
    (cache : Cache) :
  (forall t, - msPerDay < LocalTZA t < msPerDay) ->
  tryJsonParse (get (JObj props) "stdout") = sample_info ->
  exists m,
    ffprobe_success path (JObj props) cache
      = (Return (VMeta m), cache_set path (VMeta m) cache)
    /\ Meta.codec m = JStr "aac"
    /\ Meta.format m = JStr "hls"
    /\ Meta.sample_rate m = JNum 44100
    /\ Meta.size m = JNum 1024
    /\ Meta.artist m = JStr "X"
    /\ Meta.year m = JNum 2001.
Proof.
  intros Htz Hparse. unfold ffprobe_success. rewrite Hparse.
  assert (Hy : year_or_null (JStr "2001-05-01") = JNum 2001).
  { unfold year_or_null, Date_getFullYear, Date_new, Date_parse.
    change (parse_iso_date (ToString (JStr "2001-05-01"))) with (Some 988675200000).
    cbn [mbind option_bind]. rewrite year_of_sample_date by apply Htz. reflexivity. }
  assert (Hex : exists m,
    extract sample_info = Return m
    /\ Meta.codec m = JStr "aac" /\ Meta.format m = JStr "hls"
    /\ Meta.sample_rate m = JNum 44100 /\ Meta.size m = JNum 1024
    /\ Meta.artist m = JStr "X" /\ Meta.year m = JNum 2001).
  { eexists. split; [reflexivity|].
    repeat match goal with |- _ /\ _ => split end; try reflexivity.
    exact Hy. }
  destruct Hex as (m & Hex & Hfields).
  exists m. split; [|exact Hfields].
  change (truthy sample_info) with true. change (incomplete sample_info) with false.
  cbv beta iota zeta. cbn [negb]. rewrite Hex.
  by rewrite cache_get_set by eauto.
Qed.

(** C9. In a returned record, each of the six numeric fields (size,
    bit_rate, sample_rate, bit_depth, channels, duration) is null when
    the integer read from its source is 0, as it is when nothing can be
    read; the field is never the number 0. *)
Theorem zero_becomes_null (path : string) (obj : Json) (cache cache' : Cache)
    (m : Meta.t) (s f : Json) (fld : NumField) :
  ffprobe_success path obj cache = (Return (VMeta m), cache') ->
  keysToLower (first_stream (tryJsonParse (get obj "stdout"))) = Return s ->
  keysToLower (get (tryJsonParse (get obj "stdout")) "format") = Return f ->
  (parseInt (source fld s f) = Some 0 -> project fld m = JNull)
  /\ (parseInt (source fld s f) = None -> project fld m = JNull)
  /\ project fld m <> JNum 0.
Proof.
  intros Hok Hs Hf.
  apply ffprobe_success_Return in Hok as (m' & [= <-] & _ & Hex & _).
  apply extract_Return in Hex as (s' & f' & t & fmt & Hs' & Hf' & _ & _ & _ & _ & Hnum & _).
  rewrite Hs in Hs'. rewrite Hf in Hf'.
  injection Hs' as <-. injection Hf' as <-.
  rewrite Hnum. split; [|split].
  - apply parseInt_or_null_zero.
  - apply parseInt_or_null_nan.
  - apply parseInt_or_null_never_zero.
Qed.

Lemma extract_without_format_name info :
  has_field "format_name" (get info "format") = false ->
  exists err, extract info = Throw err.
Proof.
  intros Hlack. unfold extract. fold (first_stream info).
  destruct (keysToLower (first_stream info)) as [s|e]; [|cbn; eauto].
  destruct (keysToLower (get info "format")) as [f|e] eqn:Hf; [|cbn; eauto].
  cbn [bind].
  destruct (if truthy (get f "tags") then keysToLower (get f "tags") else Return (JObj []))
    as [t|e]; [|cbn; eauto].
  cbn [bind]. rewrite (keysToLower_lacks _ _ _ Hlack Hf). cbn. eauto.
Qed.

(** C10. A parsed result with a non-empty streams array and a format
    block that has no format_name field makes the extractor throw an
    ExtractionError and store nothing; and the format of a record that
    is returned is never null. *)
Theorem missing_format_name_fails (path : string) (props : list (string * Json))
    (cache : Cache) :
  truthy (tryJsonParse (get (JObj props) "stdout")) = true ->
  incomplete (tryJsonParse (get (JObj props) "stdout")) = false ->
  has_field "format_name" (get (tryJsonParse (get (JObj props) "stdout")) "format") = false ->
  (exists err, ffprobe_success path (JObj props) cache = (Throw (VError err), cache)
               /\ err_kind err = ExtractionError)
  /\ (forall path' obj' cache0 m cache',
        ffprobe_success path' obj' cache0 = (Return (VMeta m), cache') ->
        Meta.format m <> JNull).
Proof.
  intros Ht Hi Hlack. split.
  - destruct (extract_without_format_name _ Hlack) as [err Herr].
    unfold ffprobe_success. rewrite Ht, Hi, Herr. cbn [negb]. eauto.
  - intros path' obj' cache0 m cache' Hok.
    apply ffprobe_success_Return in Hok as (m' & [= <-] & _ & Hex & _).
    apply extract_Return in Hex as (_ & _ & _ & fmt & _ & _ & _ & _ & _ & Hfmt & _).
    rewrite Hfmt. discriminate.
Qed.
End ExtractorClaims.

Lemma sample_is_extracted_witness :
  (forall t, - msPerDay < @LocalTZA (host_of sample_info) t < msPerDay)
  /\ @tryJsonParse (host_of sample_info) (get (JObj (printed sample_info)) "stdout") = sample_info
  /\ exists m,
      @ffprobe_success (host_of sample_info) "live.m3u8" (JObj (printed sample_info)) empty_cache
        = (Return (VMeta m), mkCache {["live.m3u8" := VMeta m]} ProtoObject)
      /\ Meta.codec m = JStr "aac"
      /\ Meta.format m = JStr "hls"
      /\ Meta.sample_rate m = JNum 44100
      /\ Meta.size m = JNum 1024
      /\ Meta.artist m = JStr "X"
      /\ Meta.year m = JNum 2001.
Proof.
  split; [|split].
  - intros t. cbn. unfold msPerDay. lia.
  - reflexivity.
  - apply (@sample_is_extracted (host_of sample_info) "live.m3u8" (printed sample_info) empty_cache).
    + intros t. cbn. unfold msPerDay. lia.
    + reflexivity.
Defined.

Lemma zero_becomes_null_witness :
  @ffprobe_success (host_of zero_info) "a.mp3" (JObj (printed zero_info)) empty_cache
    = (Return (VMeta zero_meta), mkCache {["a.mp3" := VMeta zero_meta]} ProtoObject)
  /\ parseInt (source Channels (first_stream zero_info) (get zero_info "format")) = Some 0
  /\ project Channels zero_meta = JNull
  /\ project Channels zero_meta <> JNum 0.
Proof.
  assert (Hrun : @ffprobe_success (host_of zero_info) "a.mp3" (JObj (printed zero_info)) empty_cache
                 = (Return (VMeta zero_meta), mkCache {["a.mp3" := VMeta zero_meta]} ProtoObject))
    by reflexivity.
  assert (Hzero : parseInt (source Channels (first_stream zero_info) (get zero_info "format"))
                  = Some 0) by reflexivity.
  destruct (@zero_becomes_null (host_of zero_info) "a.mp3" (JObj (printed zero_info)) empty_cache _
              zero_meta (first_stream zero_info) (get zero_info "format") Channels
              Hrun eq_refl eq_refl) as (Hz & _ & Hne).
  split; [exact Hrun|]. split; [exact Hzero|]. split; [exact (Hz Hzero)|exact Hne].
Defined.

Lemma missing_format_name_fails_witness :
  truthy (@tryJsonParse (host_of nameless_info) (get (JObj (printed nameless_info)) "stdout"))
    = true
  /\ incomplete (@tryJsonParse (host_of nameless_info)
                   (get (JObj (printed nameless_info)) "stdout")) = false
  /\ has_field "format_name" (get nameless_info "format") = false
  /\ exists err,
       @ffprobe_success (host_of nameless_info) "a.mp3" (JObj (printed nameless_info)) empty_cache
         = (Throw (VError err), empty_cache)
       /\ err_kind err = ExtractionError.
Proof.
  split; [reflexivity|]. split; [reflexivity|]. split; [reflexivity|].
  apply (@missing_format_name_fails (host_of nameless_info) "a.mp3"
           (printed nameless_info) empty_cache); reflexivity.
Defined.

(** ** The entry points, case by case *)

Section EntryPointCases.
Context `{Host}.

Lemma target_getArgs path : target (getArgs path) = path.
Proof. reflexivity. Qed.

Lemma started_app id a b : started id (a ++ b) = (started id a + started id b)%nat.
Proof. unfold started. by rewrite List.filter_app, length_app. Qed.

Lemma started_snoc_Started id tr m path timeout :
  started id (tr ++ [Started m (getArgs path) timeout])
  = (started id tr + if String.eqb path id then 1 else 0)%nat.
Proof.
  rewrite started_app. f_equal. unfold started. cbn.
  destruct (String.eqb path id); reflexivity.
Qed.

Lemma started_snoc_Finished id tr m args :
  started id (tr ++ [Finished m args]) = started id tr.
Proof. rewrite started_app. cbn. lia. Qed.

Lemma run_cons ev rest st :
  run (ev :: rest) st
  = (fst (step ev st) :: fst (run rest (snd (step ev st))),
     snd (run rest (snd (step ev st)))).
Proof. cbn. destruct (step ev st). cbn. by destruct (run rest s). Qed.

(** When [hasOwnProperty] is not the method, [ffprobe] throws a
    [TypeError] and nothing has happened. *)
Lemma ffprobe_throws path timeout st :
  hasOwn_callable (ffprobe_cache st) = false ->
  ffprobe path timeout st
  = (Throw (VError (type_error "ffprobe_cache.hasOwnProperty is not a function")), st).
Proof. intros Hc. unfold ffprobe, hasOwnProperty. by rewrite Hc. Qed.

(** A caller that finds no own entry starts the tool, assigns the promise
    and is handed it. *)
Lemma ffprobe_absent id timeout st :
  hasOwn_callable (ffprobe_cache st) = true ->
  own (ffprobe_cache st) !! id = None ->
  ffprobe id timeout st
  = (Return (VPromise (length (promises st))),
     mkState (cache_set id (VPromise (length (promises st))) (ffprobe_cache st))
             (promises st ++ [Pending id])
             (trace st ++ [Started Async (getArgs id) timeout])
             (clock st)).
Proof.
  intros Hc Hown. unfold ffprobe, hasOwnProperty. rewrite Hc, Hown.
  rewrite bool_decide_eq_false_2 by (intros [? [=]]).
  by rewrite cache_get_set by eauto.
Qed.

(** A caller that finds an own entry that is no [Error] is handed it, and
    nothing changes. *)
Lemma ffprobe_present id timeout (x : Value) st :
  hasOwn_callable (ffprobe_cache st) = true ->
  own (ffprobe_cache st) !! id = Some x ->
  instanceof_Error x = false ->
  ffprobe id timeout st = (Return x, st).
Proof.
  intros Hc Hown Hx. unfold ffprobe, hasOwnProperty. rewrite Hc, Hown.
  rewrite bool_decide_eq_true_2 by eauto.
  rewrite (cache_get_own _ _ _ Hown). cbv zeta. by rewrite Hx.
Qed.

(** A caller that finds an own [Error] is handed a new promise that is
    rejected with it. *)
Lemma ffprobe_failed id timeout e st :
  hasOwn_callable (ffprobe_cache st) = true ->
  own (ffprobe_cache st) !! id = Some (VError e) ->
  ffprobe id timeout st
  = (Return (VPromise (length (promises st))),
     mkState (ffprobe_cache st) (promises st ++ [Rejected (VError e)])
             (trace st) (clock st)).
Proof.
  intros Hc Hown. unfold ffprobe, hasOwnProperty. rewrite Hc, Hown.
  rewrite bool_decide_eq_true_2 by eauto.
  by rewrite (cache_get_own _ _ _ Hown).
Qed.

Lemma ffprobe_pending id timeout p st :
  hasOwn_callable (ffprobe_cache st) = true ->
  own (ffprobe_cache st) !! id = Some (VPromise p) ->
  ffprobe id timeout st = (Return (VPromise p), st).
Proof. intros Hc Hown. by apply ffprobe_present. Qed.

(** What a call of [ffprobe] leaves: the state as it was, the state with
    one more promise, rejected at birth, or the state of a miss. *)
Lemma ffprobe_state path timeout st :
  snd (ffprobe path timeout st) = st
  \/ (exists e, is_Some (own (ffprobe_cache st) !! path)
                /\ snd (ffprobe path timeout st)
                   = mkState (ffprobe_cache st) (promises st ++ [Rejected e])
                             (trace st) (clock st))
  \/ (hasOwn_callable (ffprobe_cache st) = true
      /\ own (ffprobe_cache st) !! path = None
      /\ snd (ffprobe path timeout st)
         = mkState (cache_set path (VPromise (length (promises st))) (ffprobe_cache st))
                   (promises st ++ [Pending path])
                   (trace st ++ [Started Async (getArgs path) timeout])
                   (clock st)).
Proof.
  destruct (hasOwn_callable (ffprobe_cache st)) eqn:Hc;
    [|left; by rewrite ffprobe_throws].
  destruct (own (ffprobe_cache st) !! path) as [x|] eqn:Hown.
  - destruct (instanceof_Error x) eqn:Hx.
    + destruct x as [| |e|]; try discriminate.
      right. left. exists (Val (VError e)). split; [eauto|].
      by rewrite (ffprobe_failed path timeout e st Hc Hown).
    + left. by rewrite (ffprobe_present path timeout x st Hc Hown Hx).
  - right. right. split; [done|]. split; [done|].
    by rewrite (ffprobe_absent path timeout st Hc Hown).
Qed.

(** What a call of [ffprobe.sync] leaves: the state as it was, when what
    the cache reads under [path] is truthy and no promise, or the state
    in which the tool has run and its outcome has been assigned. *)
Lemma ffprobe_sync_state path timeout (out : SyncOutcome) st :
  (falsy (cache_get (ffprobe_cache st) path)
   || is_promise (cache_get (ffprobe_cache st) path) = false
   /\ ffprobe_sync path timeout out st
      = (if instanceof_Error (cache_get (ffprobe_cache st) path)
         then Throw (cache_get (ffprobe_cache st) path)
         else Return (cache_get (ffprobe_cache st) path), st))
  \/ (falsy (cache_get (ffprobe_cache st) path)
      || is_promise (cache_get (ffprobe_cache st) path) = true
      /\ ffprobe_sync path timeout out st
         = (match out with
            | Return v => if instanceof_Error v then Throw v else Return v
            | Throw err => if instanceof_Error err then Throw err else Return err
            end,
            mkState (cache_set path (match out with Return v => v | Throw err => err end)
                               (ffprobe_cache st))
                    (promises st)
                    (trace st ++ [Started Blocking (getArgs path) timeout;
                                  Finished Blocking (getArgs path)])
                    (clock st))).
Proof.
  unfold ffprobe_sync.
  destruct (falsy _ || is_promise _); [right|left]; split; try done.
  by destruct out.
Qed.

(** Each callback leaves the cache as it is or assigns under its own
    identifier. *)
Lemma callback_cache path (out : AsyncOutcome) cache :
  let r := match out with
           | Return obj => ffprobe_success path obj cache
           | Throw obj => ffprobe_fail path obj cache
           end in
  snd r = cache \/ exists v, snd r = cache_set path v cache.
Proof.
  destruct out as [obj|obj]; cbn zeta.
  - destruct (ffprobe_success path obj cache) as [[v|e] c] eqn:Hs.
    + apply ffprobe_success_Return in Hs as (m & _ & -> & _). right. eauto.
    + apply ffprobe_success_Throw in Hs as [-> _]. by left.
  - unfold ffprobe_fail. destruct obj; cbn [snd]; eauto.
Qed.

(** The state that [settle] makes of a pending promise. *)
Lemma settle_pending p id out st :
  promises st !! p = Some (Pending id) ->
  settle p out st
  = mkState (snd (match out with
                  | Return obj => ffprobe_success id obj (ffprobe_cache st)
                  | Throw obj => ffprobe_fail id obj (ffprobe_cache st)
                  end))
            (<[p := match fst (match out with
                               | Return obj => ffprobe_success id obj (ffprobe_cache st)
                               | Throw obj => ffprobe_fail id obj (ffprobe_cache st)
                               end) with
                    | Return v => Fulfilled v
                    | Throw e => Rejected e
                    end]> (promises st))
            (trace st ++ [Finished Async (getArgs id)])
            (clock st).
Proof.
  intros Hp. unfold settle. rewrite Hp.
  by destruct (match out with
               | Return obj => ffprobe_success id obj (ffprobe_cache st)
               | Throw obj => ffprobe_fail id obj (ffprobe_cache st)
               end).
Qed.

(** What [ffprobe_fail] does on an object: the error is assigned and is
    what is thrown. *)
Lemma ffprobe_fail_object path props cache :
  exists err,
    err_kind err = InvocationError /\ err_where err = Some path
    /\ ffprobe_fail path (JObj props) cache
       = (Throw (VError err), cache_set path (VError err) cache).
Proof.
  unfold ffprobe_fail. eexists. split; [|split]; [| |by rewrite cache_get_set by eauto];
    reflexivity.
Qed.

Lemma ffprobe_fail_Throw path obj cache :
  exists e, fst (ffprobe_fail path obj cache) = Throw e.
Proof. unfold ffprobe_fail. destruct obj; cbn [fst]; eauto. Qed.

Lemma outcome_settle p id out st :
  promises st !! p = Some (Pending id) ->
  outcome (settle p out st) p
  = Some (fst (match out with
               | Return obj => ffprobe_success id obj (ffprobe_cache st)
               | Throw obj => ffprobe_fail id obj (ffprobe_cache st)
               end)).
Proof.
  intros Hp. rewrite (settle_pending p id out st Hp). unfold outcome. cbn [promises].
  rewrite list_lookup_insert_eq by (eapply lookup_lt_Some; eauto).
  by destruct (fst _).
Qed.
End EntryPointCases.

(** ** The cache: coalescing *)

Section Coalescing.
Context `{Host}.

Lemma plain_event_probe path timeout :
  plain_event (EvProbe path timeout) = true -> plain path.
Proof.
  cbn. intros [Hp Hh]%andb_true_iff.
  apply negb_true_iff, String.eqb_neq in Hp, Hh. by split.
Qed.

Lemma plain_event_sync path timeout out :
  plain_event (EvSync path timeout out) = true -> plain path.
Proof.
  cbn. intros [Hp Hh]%andb_true_iff.
  apply negb_true_iff, String.eqb_neq in Hp, Hh. by split.
Qed.

Lemma ffprobe_foreign id path timeout st :
  path <> id -> plain path ->
  preserves id st (snd (ffprobe path timeout st))
  /\ (hasOwn_callable (ffprobe_cache st) = true ->
      hasOwn_callable (ffprobe_cache (snd (ffprobe path timeout st))) = true).
Proof.
  intros Hne [Hp Hh]. unfold preserves.
  destruct (ffprobe_state path timeout st) as [->|[(e & _ & ->)|(_ & _ & ->)]];
    cbn [ffprobe_cache promises trace].
  - repeat split; auto.
  - repeat split; auto. intros q s Hq. by apply lookup_app_l_Some.
  - split; [split; [|split]|].
    + by rewrite cache_set_own_other.
    + rewrite started_snoc_Started.
      destruct (String.eqb_spec path id); [contradiction|lia].
    + intros q s Hq. by apply lookup_app_l_Some.
    + by rewrite hasOwn_callable_set.
Qed.

Lemma ffprobe_sync_foreign id path timeout out st :
  path <> id -> plain path ->
  preserves id st (snd (ffprobe_sync path timeout out st))
  /\ (hasOwn_callable (ffprobe_cache st) = true ->
      hasOwn_callable (ffprobe_cache (snd (ffprobe_sync path timeout out st))) = true).
Proof.
  intros Hne [Hp Hh]. unfold preserves.
  destruct (ffprobe_sync_state path timeout out st) as [[_ ->]|[_ ->]];
    cbn [snd ffprobe_cache promises trace].
  - repeat split; auto.
  - split; [split; [|split]|].
    + by rewrite cache_set_own_other.
    + change [Started Blocking (getArgs path) timeout; Finished Blocking (getArgs path)]
        with ([Started Blocking (getArgs path) timeout]
              ++ [Finished Blocking (getArgs path)]).
      rewrite app_assoc, started_snoc_Finished, started_snoc_Started.
      destruct (String.eqb_spec path id); [contradiction|lia].
    + auto.
    + by rewrite hasOwn_callable_set.
Qed.

Lemma step_foreign id ev st :
  concurrent_with id ev = true -> is_probe_of id ev = false -> plain_event ev = true ->
  preserves id st (snd (step ev st))
  /\ (hasOwn_callable (ffprobe_cache st) = true ->
      hasOwn_callable (ffprobe_cache (snd (step ev st))) = true).
Proof.
  destruct ev as [path t|path t out|p out|dt]; cbn [concurrent_with is_probe_of step];
    try discriminate.
  - intros _ Hne Hpl. apply String.eqb_neq in Hne. apply plain_event_probe in Hpl.
    pose proof (ffprobe_foreign id path t st Hne Hpl) as Hp.
    by destruct (ffprobe path t st).
  - intros Hne _ Hpl. apply negb_true_iff, String.eqb_neq in Hne.
    apply plain_event_sync in Hpl.
    pose proof (ffprobe_sync_foreign id path t out st Hne Hpl) as Hp.
    by destruct (ffprobe_sync path t out st).
Qed.

Lemma is_probe_of_true id ev :
  is_probe_of id ev = true -> exists timeout, ev = EvProbe id timeout.
Proof.
  destruct ev; cbn; try discriminate.
  intros ->%String.eqb_eq. eauto.
Qed.

Lemma is_probe_of_EvProbe id timeout : is_probe_of id (EvProbe id timeout) = true.
Proof. cbn. apply String.eqb_refl. Qed.

(** While the own entry of [id] is the pending promise [p], concurrent
    events on plain identifiers start nothing on [id] and every caller of
    [ffprobe(id, _)] gets [p]. *)
Lemma pending_phase id p evs :
  forall st,
    hasOwn_callable (ffprobe_cache st) = true ->
    own (ffprobe_cache st) !! id = Some (VPromise p) ->
    promises st !! p = Some (Pending id) ->
    forallb (concurrent_with id) evs = true ->
    forallb plain_event evs = true ->
    started id (trace (snd (run evs st))) = started id (trace st)
    /\ own (ffprobe_cache (snd (run evs st))) !! id = Some (VPromise p)
    /\ promises (snd (run evs st)) !! p = Some (Pending id)
    /\ (forall i timeout, evs !! i = Some (EvProbe id timeout) ->
          fst (run evs st) !! i = Some (Some (Return (Val (VPromise p))))).
Proof.
  induction evs as [|ev rest IH]; intros st Hcall Hc Hp Hall Hplain.
  - cbn. repeat split; auto. intros i t Hi. by rewrite lookup_nil in Hi.
  - cbn [forallb] in Hall, Hplain.
    apply andb_true_iff in Hall as [Hev Hrest].
    apply andb_true_iff in Hplain as [Hpl Hprest].
    rewrite run_cons. cbn [fst snd].
    destruct (is_probe_of id ev) eqn:Hpr.
    + apply is_probe_of_true in Hpr as [t ->].
      assert (Hst : step (EvProbe id t) st = (Some (Return (VPromise p)), st)).
      { cbn. by rewrite (ffprobe_pending id t p st Hcall Hc). }
      rewrite Hst. cbn [fst snd].
      destruct (IH st Hcall Hc Hp Hrest Hprest) as (Hs & Hc' & Hp' & Hr).
      repeat split; auto.
      intros [|i] t' Hi; cbn in *; [done|]. eapply Hr, Hi.
    + destruct (step_foreign id ev st Hev Hpr Hpl) as ((Hc1 & Hs1 & Hp1) & Hcall1).
      destruct (IH (snd (step ev st))) as (Hs & Hc' & Hp' & Hr); auto.
      { by rewrite Hc1. }
      repeat split; auto.
      * by rewrite Hs.
      * intros [|i] t' Hi; cbn in *.
        -- injection Hi as ->. by rewrite is_probe_of_EvProbe in Hpr.
        -- eapply Hr, Hi.
Qed.

(** On identifiers other than [__proto__] and [hasOwnProperty], and from
    a state whose [hasOwnProperty] is the method and in which [id] has no
    own entry: N >= 1 calls of [ffprobe(id, _)] made while the tool of
    the first is running start the tool on [id] exactly once; every one
    of the callers is handed the same pending promise, the one the cache
    holds, which settles with one outcome when the tool ends. *)
Lemma concurrent_probes_coalesce (id : string) (evs : list Event) (st : State) :
  plain id ->
  hasOwn_callable (ffprobe_cache st) = true ->
  own (ffprobe_cache st) !! id = None ->
  forallb (concurrent_with id) evs = true ->
  forallb plain_event evs = true ->
  (1 <= probes id evs)%nat ->
  exists p,
    started id (trace (snd (run evs st))) = S (started id (trace st))
    /\ (forall i timeout, evs !! i = Some (EvProbe id timeout) ->
          fst (run evs st) !! i = Some (Some (Return (Val (VPromise p)))))
    /\ own (ffprobe_cache (snd (run evs st))) !! id = Some (VPromise p)
    /\ promises (snd (run evs st)) !! p = Some (Pending id)
    /\ (forall out, exists c, outcome (settle p out (snd (run evs st))) p = Some c).
Proof.
  intros [Hidp Hidh] Hcall Hnone Hall Hplain Hn.
  assert (Hmain : exists p,
    started id (trace (snd (run evs st))) = S (started id (trace st))
    /\ (forall i timeout, evs !! i = Some (EvProbe id timeout) ->
          fst (run evs st) !! i = Some (Some (Return (Val (VPromise p)))))
    /\ own (ffprobe_cache (snd (run evs st))) !! id = Some (VPromise p)
    /\ promises (snd (run evs st)) !! p = Some (Pending id)).
  { revert st Hcall Hnone Hall Hplain Hn.
    induction evs as [|ev rest IH]; intros st Hcall Hnone Hall Hplain Hn.
    - cbn in Hn. lia.
    - cbn [forallb] in Hall, Hplain.
      apply andb_true_iff in Hall as [Hev Hrest].
      apply andb_true_iff in Hplain as [Hpl Hprest].
      rewrite run_cons. cbn [fst snd].
      destruct (is_probe_of id ev) eqn:Hpr.
      + apply is_probe_of_true in Hpr as [t ->].
        assert (Hst : step (EvProbe id t) st
                      = (Some (Return (VPromise (length (promises st)))),
                         mkState (cache_set id (VPromise (length (promises st)))
                                            (ffprobe_cache st))
                                 (promises st ++ [Pending id])
                                 (trace st ++ [Started Async (getArgs id) t])
                                 (clock st))).
        { cbn. by rewrite (ffprobe_absent id t st Hcall Hnone). }
        rewrite Hst. cbn [fst snd].
        set (st1 := mkState _ _ _ _).
        destruct (pending_phase id (length (promises st)) rest st1) as (Hs & Hc & Hp & Hr).
        { unfold st1. cbn [ffprobe_cache]. by rewrite hasOwn_callable_set. }
        { unfold st1. cbn [ffprobe_cache]. rewrite cache_set_plain by done.
          apply lookup_insert_eq. }
        { cbn. apply list_lookup_middle. reflexivity. }
        { exact Hrest. }
        { exact Hprest. }
        exists (length (promises st)). repeat split; auto.
        * rewrite Hs. unfold st1. cbn [trace].
          rewrite started_snoc_Started, String.eqb_refl. lia.
        * intros [|i] t' Hi; cbn in *; [done|]. eapply Hr, Hi.
      + destruct (step_foreign id ev st Hev Hpr Hpl) as ((Hc1 & Hs1 & Hp1) & Hcall1).
        destruct (IH (snd (step ev st))) as (p & Hs & Hr & Hc & Hp).
        { auto. }
        { by rewrite Hc1. }
        { exact Hrest. }
        { exact Hprest. }
        { unfold probes in *. cbn in Hn. by rewrite Hpr in Hn. }
        exists p. repeat split; auto.
        * by rewrite Hs, Hs1.
        * intros [|i] t' Hi; cbn in *.
          -- injection Hi as ->. by rewrite is_probe_of_EvProbe in Hpr.
          -- eapply Hr, Hi. }
  destruct Hmain as (p & Hs & Hr & Hc & Hp).
  exists p. repeat split; auto.
  intros out. rewrite (outcome_settle p id out _ Hp). eauto.
Qed.
End Coalescing.

Lemma concurrent_probes_coalesce_example :
  exists p,
    started "a.mp3" (trace (snd (@run (host_of sample_info) interleaved_calls initial)))
      = S (started "a.mp3" (trace initial))
    /\ (forall i timeout, interleaved_calls !! i = Some (EvProbe "a.mp3" timeout) ->
          fst (@run (host_of sample_info) interleaved_calls initial) !! i
            = Some (Some (Return (Val (VPromise p)))))
    /\ own (ffprobe_cache (snd (@run (host_of sample_info) interleaved_calls initial)))
         !! "a.mp3" = Some (VPromise p)
    /\ promises (snd (@run (host_of sample_info) interleaved_calls initial)) !! p
         = Some (Pending "a.mp3")
    /\ (forall out, exists c,
          outcome (@settle (host_of sample_info) p out
                     (snd (@run (host_of sample_info) interleaved_calls initial))) p
            = Some c).
Proof.
  apply (@concurrent_probes_coalesce (host_of sample_info) "a.mp3" interleaved_calls initial).
  - split; discriminate.
  - reflexivity.
  - reflexivity.
  - reflexivity.
  - reflexivity.
  - vm_compute. lia.
Defined.

(** C1, at the failing input. Two calls of [ffprobe] on the identifier
    "__proto__", the second made while the tool of the first is running:
    the assignment of line 108 goes through the accessor of
    [Object.prototype] and replaces the prototype of the cache, no own
    entry is made, and the second call misses again: the tool is started
    twice and the two callers hold two different promises.  And after a
    call on "hasOwnProperty", whose promise shadows the method, a call on
    an identifier that has no entry throws a [TypeError] and starts
    nothing. *)
Lemma proto_probes_are_not_coalesced :
  own (ffprobe_cache initial) !! "__proto__" = None
  /\ fst (@run (host_of sample_info) proto_calls initial)
     = [Some (Return (Val (VPromise 0))); Some (Return (Val (VPromise 1)))]
  /\ started "__proto__" (trace (snd (@run (host_of sample_info) proto_calls initial)))
     = 2%nat
  /\ promises (snd (@run (host_of sample_info) proto_calls initial))
     = [Pending "__proto__"; Pending "__proto__"]
  /\ own (ffprobe_cache (snd (@run (host_of sample_info) proto_calls initial)))
       !! "__proto__" = None
  /\ proto (ffprobe_cache (snd (@run (host_of sample_info) proto_calls initial)))
     = ProtoValue (VPromise 1)
  /\ fst (@run (host_of sample_info) shadowing_calls initial)
     = [Some (Return (Val (VPromise 0)));
        Some (Throw (Val (VError
                (type_error "ffprobe_cache.hasOwnProperty is not a function"))))]
  /\ started "a.mp3" (trace (snd (@run (host_of sample_info) shadowing_calls initial)))
     = 0%nat.
Proof. repeat split; reflexivity. Qed.

(** ** The cache: invocations in flight *)

Section InFlight.
Context `{Host}.

Lemma async_in_flight_app id a b :
  async_in_flight id (a ++ b) = async_in_flight id a + async_in_flight id b.
Proof. unfold async_in_flight. induction a as [|mk a IH]; cbn; lia. Qed.

Lemma async_in_flight_snoc id tr mk :
  async_in_flight id (tr ++ [mk]) = async_in_flight id tr + mark_delta true id mk.
Proof. rewrite async_in_flight_app. cbn. lia. Qed.

Lemma counts_async_getArgs id path :
  counts true id Async (getArgs path) = String.eqb path id.
Proof. unfold counts. rewrite target_getArgs. cbn. apply andb_true_r. Qed.

Lemma counts_blocking id args : counts true id Blocking args = false.
Proof. unfold counts. cbn. apply andb_false_r. Qed.

Lemma pending_for_spec path ps :
  pending_for path ps = true <-> exists p, ps !! p = Some (Pending path).
Proof.
  unfold pending_for. rewrite existsb_exists. split.
  - intros (s & Hin & Hs). destruct s as [q| |]; try discriminate.
    apply String.eqb_eq in Hs as ->.
    by apply list_elem_of_In, list_elem_of_lookup in Hin.
  - intros (p & Hp). exists (Pending path). split.
    + apply list_elem_of_In, list_elem_of_lookup. eauto.
    + apply String.eqb_refl.
Qed.

Lemma pending_for_false path ps p :
  pending_for path ps = false -> ps !! p = Some (Pending path) -> False.
Proof.
  intros Hf Hp. assert (pending_for path ps = true) by (apply pending_for_spec; eauto).
  congruence.
Qed.

Lemma prefix_snoc (f : list Mark -> Z) tr mk :
  (forall n, f (take n tr) <= 1) -> f (tr ++ [mk]) <= 1 ->
  forall n, f (take n (tr ++ [mk])) <= 1.
Proof.
  intros Hold Hnew n.
  destruct (decide (n <= length tr)%nat) as [Hle|Hgt].
  - rewrite take_app_le by exact Hle. apply Hold.
  - rewrite take_ge; [exact Hnew|]. rewrite length_app. cbn. lia.
Qed.

Lemma Inv_initial id : Inv id initial.
Proof.
  constructor; cbn.
  - intros p Hp. by rewrite lookup_nil in Hp.
  - intros p q Hp. by rewrite lookup_nil in Hp.
  - reflexivity.
  - intros n. rewrite take_nil. cbn. lia.
Qed.

Lemma Inv_count_le id st : Inv id st -> async_in_flight id (trace st) <= 1.
Proof. intros HI. rewrite (inv_count id st HI). destruct (pending_for _ _); lia. Qed.

Lemma Inv_ffprobe id path timeout st :
  path <> "__proto__" -> Inv id st -> Inv id (snd (ffprobe path timeout st)).
Proof.
  intros Hpath HI.
  destruct (ffprobe_state path timeout st) as [->|[(e & _ & ->)|(_ & Hc & ->)]].
  - exact HI.
  - constructor; cbn [ffprobe_cache promises trace].
    + intros p [[_ Hp]|[_ [=]]]%lookup_snoc_Some. eapply inv_cached; eauto.
    + intros p q [[_ Hp]|[_ [=]]]%lookup_snoc_Some [[_ Hq]|[_ [=]]]%lookup_snoc_Some.
      eapply inv_unique; eauto.
    + rewrite (inv_count id st HI). unfold pending_for.
      rewrite existsb_app. cbn. by rewrite orb_false_r.
    + apply (inv_prefix id st HI).
  - assert (Hnone : path = id -> pending_for id (promises st) = false).
    { intros ->. destruct (pending_for id (promises st)) eqn:Hpf; [|done].
      apply pending_for_spec in Hpf as [p Hp].
      apply (inv_cached id st HI) in Hp as [v Hv]. congruence. }
    assert (Hcount :
      async_in_flight id (trace st ++ [Started Async (getArgs path) timeout])
      = if pending_for id (promises st ++ [Pending path]) then 1 else 0).
    { rewrite async_in_flight_snoc, (inv_count id st HI). cbn [mark_delta].
      rewrite counts_async_getArgs. unfold pending_for. rewrite existsb_app. cbn.
      rewrite orb_false_r. fold (pending_for id (promises st)).
      destruct (String.eqb_spec path id) as [Heq|Hne].
      - rewrite (Hnone Heq). reflexivity.
      - rewrite orb_false_r. destruct (pending_for id (promises st)); lia. }
    constructor; cbn [ffprobe_cache promises trace].
    + intros p [[_ Hp]|[_ [= <-]]]%lookup_snoc_Some.
      * apply cache_set_keeps. eapply inv_cached; eauto.
      * rewrite cache_set_plain by exact Hpath. cbn [own].
        rewrite lookup_insert_eq. eauto.
    + intros p q Hp Hq.
      apply lookup_snoc_Some in Hp as [[_ Hp]|[-> Hp]];
        apply lookup_snoc_Some in Hq as [[_ Hq]|[-> Hq]]; simplify_eq.
      * eapply inv_unique; eauto.
      * exfalso. eapply pending_for_false; eauto.
      * exfalso. eapply pending_for_false; eauto.
      * reflexivity.
    + exact Hcount.
    + apply (prefix_snoc (async_in_flight id)).
      * intros k. apply (inv_prefix id st HI).
      * rewrite Hcount. destruct (pending_for id (promises st ++ [Pending path])); lia.
Qed.

Lemma Inv_ffprobe_sync id path timeout out st :
  Inv id st -> Inv id (snd (ffprobe_sync path timeout out st)).
Proof.
  intros HI.
  destruct (ffprobe_sync_state path timeout out st) as [[_ ->]|[_ ->]]; cbn [snd];
    [exact HI|].
  assert (Hsame :
    async_in_flight id
      (trace st ++ [Started Blocking (getArgs path) timeout; Finished Blocking (getArgs path)])
    = async_in_flight id (trace st)).
  { rewrite async_in_flight_app. cbn. rewrite !counts_blocking. lia. }
  constructor; cbn [ffprobe_cache promises trace].
  - intros p Hp. apply cache_set_keeps. eapply inv_cached; eauto.
  - apply (inv_unique id st HI).
  - rewrite Hsame. apply (inv_count id st HI).
  - change [Started Blocking (getArgs path) timeout; Finished Blocking (getArgs path)]
      with ([Started Blocking (getArgs path) timeout]
            ++ [Finished Blocking (getArgs path)])%list.
    rewrite app_assoc. apply (prefix_snoc (async_in_flight id)).
    + apply (prefix_snoc (async_in_flight id)).
      * intros k. apply (inv_prefix id st HI).
      * rewrite async_in_flight_snoc. cbn. rewrite counts_blocking.
        pose proof (Inv_count_le id st HI). lia.
    + rewrite <- app_assoc. cbn [app]. rewrite Hsame. by apply Inv_count_le.
Qed.

Lemma Inv_settle id p out st : Inv id st -> Inv id (settle p out st).
Proof.
  intros HI. unfold settle.
  destruct (promises st !! p) as [[path|v|e]|] eqn:Hp; auto.
  pose proof (callback_cache path out (ffprobe_cache st)) as Hcache. cbn zeta in Hcache.
  destruct (match out with
            | Return obj => ffprobe_success path obj (ffprobe_cache st)
            | Throw obj => ffprobe_fail path obj (ffprobe_cache st)
            end) as [c cache'].
  cbn [snd] in Hcache.
  set (s := match c with Return v => Fulfilled v | Throw e => Rejected e end).
  assert (Hs : forall q, s <> Pending q) by (intros q; unfold s; by destruct c).
  assert (Hold : forall q path',
    <[p := s]> (promises st) !! q = Some (Pending path') ->
    q <> p /\ promises st !! q = Some (Pending path')).
  { intros q path' Hq. destruct (decide (q = p)) as [->|Hne].
    - rewrite list_lookup_insert_eq in Hq by (eapply lookup_lt_Some; eauto).
      injection Hq as Hq. by apply Hs in Hq.
    - by rewrite list_lookup_insert_ne in Hq. }
  assert (Hcount :
    async_in_flight id (trace st ++ [Finished Async (getArgs path)])
    = if pending_for id (<[p := s]> (promises st)) then 1 else 0).
  { rewrite async_in_flight_snoc, (inv_count id st HI). cbn [mark_delta].
    rewrite counts_async_getArgs.
    destruct (String.eqb_spec path id) as [<-|Hne].
    - assert (pending_for path (promises st) = true) as -> by (apply pending_for_spec; eauto).
      destruct (pending_for path (<[p := s]> (promises st))) eqn:Hpf; [|lia].
      apply pending_for_spec in Hpf as [q Hq]. apply Hold in Hq as [Hne Hq].
      exfalso. apply Hne. eapply inv_unique; eauto.
    - replace (pending_for id (<[p := s]> (promises st)))
        with (pending_for id (promises st)); [lia|].
      apply eq_true_iff_eq. rewrite !pending_for_spec. split.
      + intros [q Hq]. exists q. rewrite list_lookup_insert_ne; [done|].
        intros ->. congruence.
      + intros [q Hq]. exists q. by apply Hold in Hq as [_ Hq]. }
  constructor; cbn [ffprobe_cache promises trace].
  - intros q Hq. apply Hold in Hq as [_ Hq].
    apply (inv_cached id st HI) in Hq.
    destruct Hcache as [->|[v ->]]; [done|].
    by apply cache_set_keeps.
  - intros q r [_ Hq]%Hold [_ Hr]%Hold. eapply inv_unique; eauto.
  - exact Hcount.
  - apply (prefix_snoc (async_in_flight id)).
    + intros k. apply (inv_prefix id st HI).
    + rewrite Hcount. destruct (pending_for id _); lia.
Qed.

Lemma Inv_step id ev st :
  avoids "__proto__" ev = true -> fires ev st = false ->
  Inv id st -> Inv id (snd (step ev st)).
Proof.
  destruct ev as [path t|path t out|p out|dt]; cbn [step avoids fires]; intros Hav Hnt HI.
  - apply negb_true_iff, String.eqb_neq in Hav.
    pose proof (Inv_ffprobe id path t st Hav HI). by destruct (ffprobe path t st).
  - pose proof (Inv_ffprobe_sync id path t out st HI).
    by destruct (ffprobe_sync path t out st).
  - cbn. by apply Inv_settle.
  - cbn [snd]. unfold elapse. rewrite Hnt.
    destruct HI as [Hc Hu Hn Hp]. by constructor.
Qed.

Lemma Inv_run id evs : forall st,
  forallb (avoids "__proto__") evs = true -> calm evs st = true ->
  Inv id st -> Inv id (snd (run evs st)).
Proof.
  induction evs as [|ev rest IH]; intros st Hall Hcalm HI; [exact HI|].
  cbn [forallb] in Hall. apply andb_true_iff in Hall as [Hev Hrest].
  cbn [calm] in Hcalm. apply andb_true_iff in Hcalm as [Hnf Hcalm].
  apply negb_true_iff in Hnf.
  rewrite run_cons. cbn [snd]. apply IH; [exact Hrest|exact Hcalm|]. by apply Inv_step.
Qed.

End InFlight.



(** ** The cache: settled entries *)

Section Settled.
Context `{Host}.

(** A record or an error that the cache has as an own property is handed
    back by [ffprobe.sync] without the tool being run. *)
Lemma ffprobe_sync_settled id timeout out st v :
  own (ffprobe_cache st) !! id = Some v -> is_Resolved v \/ is_Failed v ->
  ffprobe_sync id timeout out st
  = (if instanceof_Error v then Throw (Val v) else Return (Val v), st).
Proof.
  intros Hc Hv. unfold ffprobe_sync. rewrite (cache_get_own _ _ _ Hc).
  by destruct Hv as [[m ->]|[e ->]].
Qed.

(** No call of [ffprobe] changes an own property that the cache has. *)
Lemma ffprobe_keeps_own id v path timeout st :
  own (ffprobe_cache st) !! id = Some v ->
  own (ffprobe_cache (snd (ffprobe path timeout st))) !! id = Some v.
Proof.
  intros Hc.
  destruct (ffprobe_state path timeout st) as [->|[(e & _ & ->)|(_ & Hn & ->)]];
    cbn [ffprobe_cache]; auto.
  rewrite cache_set_own_other; [done|]. intros ->. congruence.
Qed.

(** An own record in the cache is handed back by [ffprobe] as it is; an
    own error is handed back as a promise rejected with it; the tool is
    not run. *)
Lemma ffprobe_settled id timeout st v :
  hasOwn_callable (ffprobe_cache st) = true ->
  own (ffprobe_cache st) !! id = Some v -> is_Resolved v \/ is_Failed v ->
  ffprobe_cache (snd (ffprobe id timeout st)) = ffprobe_cache st
  /\ trace (snd (ffprobe id timeout st)) = trace st
  /\ (is_Resolved v -> ffprobe id timeout st = (Return (Val v), st))
  /\ (is_Failed v ->
      exists p, fst (ffprobe id timeout st) = Return (Val (VPromise p))
                /\ outcome (snd (ffprobe id timeout st)) p = Some (Throw (Val v))).
Proof.
  intros Hcall Hc Hv.
  destruct Hv as [[m ->]|[e ->]].
  - rewrite (ffprobe_present id timeout (VMeta m) st Hcall Hc eq_refl).
    repeat split; auto. intros [e [=]].
  - rewrite (ffprobe_failed id timeout e st Hcall Hc). cbn [fst snd ffprobe_cache trace].
    repeat split; auto.
    + intros [m [=]].
    + intros _. exists (length (promises st)). split; [done|].
      unfold outcome. cbn. by rewrite list_lookup_middle.
Qed.

Lemma step_keeps_settled id v ev st :
  own (ffprobe_cache st) !! id = Some v -> is_Resolved v \/ is_Failed v ->
  disturbs id ev st = false ->
  own (ffprobe_cache (snd (step ev st))) !! id = Some v.
Proof.
  intros Hc Hv Hq.
  destruct ev as [path t|path t out|p out|dt]; cbn [step].
  - pose proof (ffprobe_keeps_own id v path t st Hc) as Hsame.
    by destruct (ffprobe path t st).
  - destruct (decide (path = id)) as [->|Hne].
    + rewrite (ffprobe_sync_settled id t out st v Hc Hv). exact Hc.
    + destruct (ffprobe_sync_state path t out st) as [[_ ->]|[_ ->]];
        cbn [snd ffprobe_cache]; [done|].
      by rewrite cache_set_own_other.
  - cbn [snd]. unfold settle. cbn [disturbs] in Hq.
    destruct (promises st !! p) as [[path|w|e]|]; auto.
    apply String.eqb_neq in Hq.
    pose proof (callback_cache path out (ffprobe_cache st)) as Hcache. cbn zeta in Hcache.
    destruct (match out with
              | Return obj => ffprobe_success path obj (ffprobe_cache st)
              | Throw obj => ffprobe_fail path obj (ffprobe_cache st)
              end) as [c cache'].
    cbn [snd ffprobe_cache] in *.
    destruct Hcache as [->|[w ->]]; [done|]. by rewrite cache_set_own_other.
  - cbn [snd]. unfold elapse. cbn [disturbs] in Hq. by rewrite Hq.
Qed.

(** The same along a run, for the proofs below. *)
Lemma run_keeps_settled id v evs :
  forall st : State,
    own (ffprobe_cache st) !! id = Some v ->
    is_Resolved v \/ is_Failed v ->
    quiet id evs st = true ->
    own (ffprobe_cache (snd (run evs st))) !! id = Some v.
Proof.
  induction evs as [|ev rest IH]; intros st Hc Hv Hq; [exact Hc|].
  cbn [quiet] in Hq. apply andb_true_iff in Hq as [Hev Hrest].
  apply negb_true_iff in Hev.
  rewrite run_cons. cbn [snd]. apply IH; auto.
  by apply step_keeps_settled.
Qed.


Lemma timer_fires_period t : timer_fires t clear_interval = 1.
Proof.
  unfold timer_fires, clear_interval.
  replace (t + 60000) with (t + 1 * 60000) by lia.
  rewrite Z.div_add by lia. lia.
Qed.

Lemma elapse_fires dt st :
  0 < timer_fires (clock st) dt ->
  elapse dt st = mkState empty_cache (promises st) (trace st) (clock st + dt).
Proof. intros Hfire. unfold elapse. apply Z.ltb_lt in Hfire. by rewrite Hfire. Qed.

(** C8. The timer has a period of 60 seconds and fires once in every
    60 seconds; when it fires, the whole cache becomes a new empty object
    in one step, whatever it held; an identifier whose record was served
    from the cache before is then missing, and the next call of
    [ffprobe] on it starts the tool exactly once. *)
Theorem clear_then_probe_invokes_once (st : State) (dt : Z) (id : string) (m : Meta.t)
    (timeout : Json) :
  0 < timer_fires (clock st) dt ->
  own (ffprobe_cache st) !! id = Some (VMeta m) ->
  clear_interval = 60 * 1000
  /\ (forall t, timer_fires t clear_interval = 1)
  /\ ffprobe id timeout st
     = (if hasOwn_callable (ffprobe_cache st)
        then (Return (Val (VMeta m)), st)
        else (Throw (Val (VError
                (type_error "ffprobe_cache.hasOwnProperty is not a function"))), st))
  /\ ffprobe_cache (elapse dt st) = empty_cache
  /\ ffprobe id timeout (elapse dt st)
     = (Return (Val (VPromise (length (promises st)))),
        mkState (cache_set id (VPromise (length (promises st))) empty_cache)
                (promises st ++ [Pending id])
                (trace st ++ [Started Async (getArgs id) timeout])
                (clock st + dt))
  /\ started id (trace (snd (ffprobe id timeout (elapse dt st))))
     = S (started id (trace st)).
Proof.
  intros Hfire Hc.
  assert (Hel := elapse_fires dt st Hfire).
  assert (Hprobe : ffprobe id timeout (elapse dt st)
     = (Return (Val (VPromise (length (promises st)))),
        mkState (cache_set id (VPromise (length (promises st))) empty_cache)
                (promises st ++ [Pending id])
                (trace st ++ [Started Async (getArgs id) timeout])
                (clock st + dt))).
  { rewrite Hel. by rewrite ffprobe_absent by (try apply lookup_empty; reflexivity). }
  split; [reflexivity|]. split; [exact timer_fires_period|].
  split.
  { destruct (hasOwn_callable (ffprobe_cache st)) eqn:Hcall.
    - by apply ffprobe_present.
    - by apply ffprobe_throws. }
  split; [by rewrite Hel|]. split; [exact Hprobe|].
  rewrite Hprobe. cbn [snd trace].
  rewrite started_snoc_Started, String.eqb_refl. lia.
Qed.
End Settled.



Lemma clear_then_probe_invokes_once_witness :
  0 < timer_fires (clock after_resolution) 60000
  /\ own (ffprobe_cache after_resolution) !! "a.mp3" = Some (VMeta sample_meta)
  /\ ffprobe_cache (elapse 60000 after_resolution) = empty_cache
  /\ started "a.mp3"
       (trace (snd (@ffprobe (host_of sample_info) "a.mp3" JUndef
                      (elapse 60000 after_resolution))))
     = S (started "a.mp3" (trace after_resolution)).
Proof.
  assert (Hfire : 0 < timer_fires (clock after_resolution) 60000) by (vm_compute; reflexivity).
  assert (Hc : own (ffprobe_cache after_resolution) !! "a.mp3" = Some (VMeta sample_meta))
    by reflexivity.
  destruct (@clear_then_probe_invokes_once (host_of sample_info) after_resolution 60000
              "a.mp3" sample_meta JUndef Hfire Hc) as (_ & _ & _ & Hempty & _ & Hstarted).
  split; [exact Hfire|]. split; [exact Hc|]. split; [exact Hempty|exact Hstarted].
Defined.

(** ** The blocking entry point and the errors of the extractor *)

Section Blocking.
Context `{Host}.

(** With nothing under [id], on the cache or along its chain, or with a
    promise as the own entry, [ffprobe.sync] runs the tool itself, leaves
    the promises alone and assigns what the collaborator returned or
    threw, as it got it. *)
Lemma ffprobe_sync_invokes id timeout (out : SyncOutcome) st :
  (own (ffprobe_cache st) !! id = None
   /\ inherited (proto (ffprobe_cache st)) id = NotFound)
  \/ (exists p, own (ffprobe_cache st) !! id = Some (VPromise p)) ->
  ffprobe_sync id timeout out st
  = (match out with
     | Return v => if instanceof_Error v then Throw (Val v) else Return (Val v)
     | Throw err => if instanceof_Error err then Throw (Val err) else Return (Val err)
     end,
     mkState (cache_set id (match out with Return v => v | Throw err => err end)
                (ffprobe_cache st))
             (promises st)
             (trace st ++ [Started Blocking (getArgs id) timeout;
                           Finished Blocking (getArgs id)])
             (clock st)).
Proof.
  intros Hc. unfold ffprobe_sync, cache_get.
  destruct Hc as [[-> ->]|[p ->]]; cbn; by destruct out.
Qed.

(** The rejection handler stores an [InvocationError], which
    [ffprobe.sync] then throws without running the tool, and of which
    [ffprobe] makes a rejected promise without running the tool. *)
Lemma invocation_error_replayed p id props timeout out st :
  promises st !! p = Some (Pending id) ->
  exists err,
    err_kind err = InvocationError
    /\ cache_get (ffprobe_cache (settle p (Throw (JObj props)) st)) id = Val (VError err)
    /\ ffprobe_sync id timeout out (settle p (Throw (JObj props)) st)
       = (Throw (Val (VError err)), settle p (Throw (JObj props)) st)
    /\ (id <> "__proto__" ->
        hasOwn_callable (ffprobe_cache (settle p (Throw (JObj props)) st)) = true ->
        own (ffprobe_cache (settle p (Throw (JObj props)) st)) !! id = Some (VError err)
        /\ trace (snd (ffprobe id timeout (settle p (Throw (JObj props)) st)))
           = trace (settle p (Throw (JObj props)) st)
        /\ exists q,
             fst (ffprobe id timeout (settle p (Throw (JObj props)) st))
             = Return (Val (VPromise q))
             /\ outcome (snd (ffprobe id timeout (settle p (Throw (JObj props)) st))) q
                = Some (Throw (Val (VError err)))).
Proof.
  intros Hp.
  destruct (ffprobe_fail_object id props (ffprobe_cache st)) as (err & Hk & _ & Hf).
  rewrite (settle_pending p id (Throw (JObj props)) st Hp), Hf. cbn [fst snd].
  set (st' := mkState _ _ _ _).
  assert (Hget : cache_get (ffprobe_cache st') id = Val (VError err)).
  { unfold st'. cbn [ffprobe_cache]. apply cache_get_set. eauto. }
  exists err. split; [exact Hk|]. split; [exact Hget|]. split.
  - unfold ffprobe_sync. by rewrite Hget.
  - intros Hid Hcall.
    assert (Hown : own (ffprobe_cache st') !! id = Some (VError err)).
    { unfold st'. cbn [ffprobe_cache]. rewrite cache_set_plain by exact Hid.
      apply lookup_insert_eq. }
    split; [exact Hown|].
    rewrite (ffprobe_failed id timeout err st' Hcall Hown). cbn [fst snd trace].
    split; [done|]. exists (length (promises st')). split; [done|].
    unfold outcome. cbn [promises]. by rewrite list_lookup_middle.
Qed.
End Blocking.

(** C2, at the failing input. On an empty cache, [ffprobe.sync] of "a.mp3"
    with the tool printing the sample hands back, and stores, the object
    of the collaborator as it is: the entry is neither a metadata record
    nor an error, although [ffprobe_success] makes the record out of the
    same object; a later call of [ffprobe] is answered with that object. *)
Lemma sync_hands_back_raw_output :
  own (ffprobe_cache initial) !! "a.mp3" = None
  /\ fst (@ffprobe_sync (host_of sample_info) "a.mp3" JUndef
            (Return (VData sample_obj)) initial)
     = Return (Val (VData sample_obj))
  /\ own (ffprobe_cache
       (snd (@ffprobe_sync (host_of sample_info) "a.mp3" JUndef
               (Return (VData sample_obj)) initial)))
       !! "a.mp3"
     = Some (VData sample_obj)
  /\ ~ is_Resolved (VData sample_obj)
  /\ ~ is_Failed (VData sample_obj)
  /\ fst (@ffprobe_success (host_of sample_info) "a.mp3" sample_obj empty_cache)
     = Return (Val (VMeta sample_meta))
  /\ fst (@ffprobe (host_of sample_info) "a.mp3" JUndef
            (snd (@ffprobe_sync (host_of sample_info) "a.mp3" JUndef
                    (Return (VData sample_obj)) initial)))
     = Return (Val (VData sample_obj)).
Proof.
  split; [reflexivity|]. split; [reflexivity|]. split; [reflexivity|].
  split; [intros [m [=]]|]. split; [intros [e [=]]|].
  split; reflexivity.
Qed.

(** C5, at the failing input. The tool of "a.mp3" prints no JSON: the
    promise is rejected with an ExtractionError, but the entry of the
    cache stays that promise and no error is stored; [ffprobe] hands the
    rejected promise back and starts nothing, while [ffprobe.sync] runs
    the tool again. *)
Lemma extraction_error_not_replayed_to_sync :
  (exists err, outcome after_bad_output 0 = Some (Throw (Val (VError err)))
               /\ err_kind err = ExtractionError)
  /\ own (ffprobe_cache after_bad_output) !! "a.mp3" = Some (VPromise 0)
  /\ @ffprobe (host_of sample_info) "a.mp3" JUndef after_bad_output
     = (Return (Val (VPromise 0)), after_bad_output)
  /\ started "a.mp3" (trace after_bad_output) = 1%nat
  /\ started "a.mp3"
       (trace (snd (@ffprobe_sync (host_of sample_info) "a.mp3" JUndef
                      (Return (VData sample_obj)) after_bad_output)))
     = 2%nat
  /\ fst (@ffprobe_sync (host_of sample_info) "a.mp3" JUndef
            (Return (VData sample_obj)) after_bad_output)
     = Return (Val (VData sample_obj)).
Proof.
  split; [eexists; split; reflexivity|].
  repeat split; reflexivity.
Qed.

(** C6, at the failing input. The output of the tool does not parse and
    [ffprobe_success] throws an ExtractionError on it; [ffprobe.sync],
    which does not call the extractor, returns the same object to its
    caller and throws nothing. *)
Lemma sync_returns_unparseable_output :
  @tryJsonParse (host_of sample_info) (get garbage_obj "stdout") = JUndef
  /\ (exists err,
        @ffprobe_success (host_of sample_info) "a.mp3" garbage_obj empty_cache
          = (Throw (Val (VError err)), empty_cache)
        /\ err_kind err = ExtractionError)
  /\ fst (@ffprobe_sync (host_of sample_info) "a.mp3" JUndef
            (Return (VData garbage_obj)) initial)
     = Return (Val (VData garbage_obj)).
Proof.
  split; [reflexivity|]. split; [eexists; split; reflexivity|]. reflexivity.
Qed.

(** ** Further properties of the entry points *)

Section EntryPointFacts.
Context `{Host}.

Lemma snoc_neq {A} (l : list A) (x : A) : l ++ [x] <> l.
Proof.
  intros Heq. apply (f_equal length) in Heq. rewrite length_app in Heq. cbn in Heq. lia.
Qed.

(** With an own entry, whatever it is, [ffprobe] changes neither the
    cache nor the trace. *)
Lemma ffprobe_hit path timeout st :
  is_Some (own (ffprobe_cache st) !! path) ->
  trace (snd (ffprobe path timeout st)) = trace st
  /\ ffprobe_cache (snd (ffprobe path timeout st)) = ffprobe_cache st.
Proof.
  intros [x Hx].
  destruct (ffprobe_state path timeout st) as [->|[(e & _ & ->)|(_ & Hn & _)]];
    [done|done|congruence].
Qed.

(** X1. [ffprobe] begins by calling [ffprobe_cache.hasOwnProperty]: when
    what the cache has under that name is not the method of
    [Object.prototype], it throws a [TypeError] and nothing has happened;
    otherwise it starts the tool exactly when the identifier is no own
    property of the cache, whatever an own property may hold or the
    prototype chain may have under that name, and it starts it at most
    once.  It never changes or removes an own property that is there. *)
Theorem ffprobe_runs_tool_only_on_miss (path : string) (timeout : Json) (st : State) :
  (hasOwn_callable (ffprobe_cache st) = false ->
     ffprobe path timeout st
     = (Throw (Val (VError (type_error "ffprobe_cache.hasOwnProperty is not a function"))),
        st))
  /\ (hasOwn_callable (ffprobe_cache st) = true ->
      (trace (snd (ffprobe path timeout st)) = trace st
       <-> is_Some (own (ffprobe_cache st) !! path))
      /\ (own (ffprobe_cache st) !! path = None ->
          trace (snd (ffprobe path timeout st))
          = trace st ++ [Started Async (getArgs path) timeout]))
  /\ (forall k v, own (ffprobe_cache st) !! k = Some v ->
        own (ffprobe_cache (snd (ffprobe path timeout st))) !! k = Some v).
Proof.
  split; [|split].
  - apply ffprobe_throws.
  - intros Hcall. split.
    + split.
      * destruct (own (ffprobe_cache st) !! path) as [x|] eqn:Hc; [eauto|].
        rewrite (ffprobe_absent path timeout st Hcall Hc). cbn [snd trace].
        intros Heq. by apply snoc_neq in Heq.
      * intros Hsome. by apply ffprobe_hit.
    + intros Hc. by rewrite (ffprobe_absent path timeout st Hcall Hc).
  - intros k v Hk. by apply ffprobe_keeps_own.
Qed.

(** X2. [ffprobe.sync] never touches the promises or the clock: it does
    not settle or wait for the promise it may overwrite; it leaves the
    own properties of all other names alone, and it runs the tool exactly
    when what the cache reads under the identifier, own or inherited, is
    falsy or a promise. *)
Theorem ffprobe_sync_leaves_promises (path : string) (timeout : Json) (out : SyncOutcome)
    (st : State) :
  promises (snd (ffprobe_sync path timeout out st)) = promises st
  /\ clock (snd (ffprobe_sync path timeout out st)) = clock st
  /\ (forall k, k <> path ->
        own (ffprobe_cache (snd (ffprobe_sync path timeout out st))) !! k
        = own (ffprobe_cache st) !! k)
  /\ (trace (snd (ffprobe_sync path timeout out st)) = trace st
      <-> falsy (cache_get (ffprobe_cache st) path) = false
          /\ is_promise (cache_get (ffprobe_cache st) path) = false)
  /\ (trace (snd (ffprobe_sync path timeout out st)) <> trace st ->
      trace (snd (ffprobe_sync path timeout out st))
      = trace st ++ [Started Blocking (getArgs path) timeout;
                     Finished Blocking (getArgs path)]).
Proof.
  destruct (ffprobe_sync_state path timeout out st) as [[Hx ->]|[Hx ->]];
    cbn [snd promises clock ffprobe_cache trace].
  - apply orb_false_iff in Hx. repeat split; tauto.
  - split; [done|]. split; [done|].
    split; [intros k Hk; by rewrite cache_set_own_other|]. split; [|done].
    split.
    + intros Heq. rewrite <- (app_nil_r (trace st)) in Heq at 2.
      apply app_inv_head in Heq. discriminate.
    + intros [Hf Hp]. rewrite Hf, Hp in Hx. discriminate.
Qed.

(** X3. On an identifier other than [__proto__], and while the
    prototype of the cache is no [Error] and no array, what
    [ffprobe.sync] returns or throws is what the cache reads under the
    identifier afterwards; it throws it when it is an [Error] and returns
    it otherwise, so that a value that is no [Error] and that the
    collaborator throws is handed back as a result, and so is a function
    that the cache inherits under that name. *)
Theorem ffprobe_sync_answers_with_entry (path : string) (timeout : Json) (out : SyncOutcome)
    (st : State) :
  path <> "__proto__" ->
  tame (ffprobe_cache st) = true ->
  fst (ffprobe_sync path timeout out st)
  = (if instanceof_Error
          (cache_get (ffprobe_cache (snd (ffprobe_sync path timeout out st))) path)
     then Throw (cache_get (ffprobe_cache (snd (ffprobe_sync path timeout out st))) path)
     else Return (cache_get (ffprobe_cache (snd (ffprobe_sync path timeout out st))) path)).
Proof.
  intros Hpath _.
  destruct (ffprobe_sync_state path timeout out st) as [[_ ->]|[_ ->]];
    cbn [fst snd ffprobe_cache]; [done|].
  rewrite cache_set_plain by exact Hpath.
  erewrite cache_get_own by (cbn [own]; apply lookup_insert_eq).
  by destruct out.
Qed.

(** X4. A falsy value that the cache has as an own property (what the
    collaborator returned, an empty string for instance) answers every
    call of [ffprobe] that gets past [hasOwnProperty], without the tool
    being run, while every call of [ffprobe.sync] runs the tool again and
    replaces it. *)
Theorem falsy_entry_is_probed_again (path : string) (v : Value) (timeout : Json)
    (out : SyncOutcome) (st : State) :
  own (ffprobe_cache st) !! path = Some v ->
  falsy v = true ->
  (hasOwn_callable (ffprobe_cache st) = true ->
   ffprobe path timeout st = (Return (Val v), st))
  /\ trace (snd (ffprobe path timeout st)) = trace st
  /\ trace (snd (ffprobe_sync path timeout out st))
     = trace st ++ [Started Blocking (getArgs path) timeout; Finished Blocking (getArgs path)]
  /\ own (ffprobe_cache (snd (ffprobe_sync path timeout out st))) !! path
     = Some (match out with Return r => r | Throw err => err end).
Proof.
  intros Hc Hf.
  assert (Hx : falsy (cache_get (ffprobe_cache st) path)
               || is_promise (cache_get (ffprobe_cache st) path) = true).
  { rewrite (cache_get_own _ _ _ Hc). by rewrite Hf. }
  split; [|split; [|split]].
  - intros Hcall. apply ffprobe_present; auto. by destruct v as [[]| | |].
  - apply ffprobe_hit. eauto.
  - destruct (ffprobe_sync_state path timeout out st) as [[Hx' _]|[_ ->]]; [congruence|done].
  - destruct (ffprobe_sync_state path timeout out st) as [[Hx' _]|[_ ->]]; [congruence|].
    cbn [snd ffprobe_cache]. rewrite cache_set_owned by eauto. apply lookup_insert_eq.
Qed.

(** X5. When an invocation ends well, the record its promise is fulfilled
    with is what the cache then reads under the identifier, whatever was
    there before; [ffprobe.sync] returns that record without running the
    tool, and so does the next call of [ffprobe], as the record itself
    and not as a promise, when the identifier is not [__proto__], the
    prototype of the cache is no [Error] and no array, and
    [hasOwnProperty] is the method. *)
Theorem fulfilled_record_is_served (p : nat) (id : string) (out : AsyncOutcome)
    (st : State) (v : Answer) (timeout : Json) (out' : SyncOutcome) :
  promises st !! p = Some (Pending id) ->
  outcome (settle p out st) p = Some (Return v) ->
  (exists m, v = Val (VMeta m)
             /\ ffprobe_cache (settle p out st) = cache_set id (VMeta m) (ffprobe_cache st))
  /\ cache_get (ffprobe_cache (settle p out st)) id = v
  /\ ffprobe_sync id timeout out' (settle p out st) = (Return v, settle p out st)
  /\ (id <> "__proto__" ->
      tame (ffprobe_cache st) = true ->
      hasOwn_callable (ffprobe_cache (settle p out st)) = true ->
      ffprobe id timeout (settle p out st) = (Return v, settle p out st)).
Proof.
  intros Hp Hout. rewrite (outcome_settle p id out st Hp) in Hout.
  injection Hout as Hout.
  assert (Hm : exists m, v = Val (VMeta m)
                         /\ ffprobe_cache (settle p out st)
                            = cache_set id (VMeta m) (ffprobe_cache st)).
  { rewrite (settle_pending p id out st Hp). cbn [ffprobe_cache].
    destruct out as [obj|obj].
    - destruct (ffprobe_success id obj (ffprobe_cache st)) as [c cache'] eqn:Hs.
      cbn [fst snd] in *. subst c.
      apply ffprobe_success_Return in Hs as (m & -> & -> & _). eauto.
    - destruct (ffprobe_fail_Throw id obj (ffprobe_cache st)) as [e He]. congruence. }
  destruct Hm as (m & -> & Hc).
  assert (Hget : cache_get (ffprobe_cache (settle p out st)) id = Val (VMeta m)).
  { rewrite Hc. apply cache_get_set. eauto. }
  split; [eauto|]. split; [exact Hget|]. split.
  - unfold ffprobe_sync. by rewrite Hget.
  - intros Hid _ Hcall. apply ffprobe_present; auto.
    rewrite Hc, cache_set_plain by exact Hid. apply lookup_insert_eq.
Qed.



(** X8. In a state reached by calls on identifiers other than
    [__proto__], by ends of the tool and by time that passes without the
    timer firing, an identifier whose asynchronous invocation is pending
    is an own property of the cache, so that [ffprobe] on it starts
    nothing, also after [ffprobe.sync] has overwritten the promise. *)
Theorem pending_identifier_is_not_probed_again (evs : list Event) (p : nat) (id : string)
    (timeout : Json) :
  forallb (avoids "__proto__") evs = true ->
  calm evs initial = true ->
  promises (snd (run evs initial)) !! p = Some (Pending id) ->
  is_Some (own (ffprobe_cache (snd (run evs initial))) !! id)
  /\ trace (snd (ffprobe id timeout (snd (run evs initial))))
     = trace (snd (run evs initial)).
Proof.
  intros Hall Hcalm Hp.
  pose proof (inv_cached id _ (Inv_run id evs initial Hall Hcalm (Inv_initial id)) p Hp)
    as Hsome.
  split; [exact Hsome|]. by apply ffprobe_hit.
Qed.
End EntryPointFacts.

(** ** Further properties of the extractor *)

Section ExtractorMore.
Context `{Host}.

Lemma lower_ascii_idem c : lower_ascii (lower_ascii c) = lower_ascii c.
Proof. destruct c as [[] [] [] [] [] [] [] []]; reflexivity. Qed.

Lemma toLowerCase_idem s : toLowerCase (toLowerCase s) = toLowerCase s.
Proof. induction s as [|c r IH]; cbn; [done|]. by rewrite lower_ascii_idem, IH. Qed.

Lemma split_comma_first_lower s :
  toLowerCase s = s -> toLowerCase (split_comma_first s) = split_comma_first s.
Proof.
  induction s as [|c r IH]; cbn; [done|]. intros [= Hc Hr].
  destruct (Ascii.eqb c ","); cbn; [done|]. by rewrite Hc, IH.
Qed.

Lemma split_comma_first_no_comma s : has_comma (split_comma_first s) = false.
Proof.
  induction s as [|c r IH]; cbn; [done|].
  destruct (Ascii.eqb c ",") eqn:Hc; cbn; [done|]. by rewrite Hc, IH.
Qed.

Lemma parseInt_or_null_shape v : null_or_nonzero (parseInt_or_null v).
Proof.
  unfold parseInt_or_null, js_or, null_or_nonzero.
  destruct (parseInt v) as [n|]; [|by left]. cbn.
  destruct (Z.eqb_spec n 0); cbn; [by left|right; eauto].
Qed.

Lemma year_or_null_shape v : null_or_nonzero (year_or_null v).
Proof.
  unfold year_or_null, js_or, null_or_nonzero.
  destruct (Date_getFullYear v) as [n|]; [|by left]. cbn.
  destruct (Z.eqb_spec n 0); cbn; [by left|right; eauto].
Qed.

Lemma js_or_shape a b : null_or_truthy b -> null_or_truthy (a ||| b).
Proof. unfold js_or. destruct (truthy a) eqn:Ha; [by right|done]. Qed.

Lemma null_shape : null_or_truthy JNull.
Proof. by left. Qed.

(** What a successful run of the [try] block has read from the tags. *)
Lemma extract_tags info m :
  extract info = Return m ->
  exists t,
    tags_of info = Return t
    /\ Meta.title m = (get t "title" ||| get t "name" ||| JNull)
    /\ Meta.album m = (get t "album" ||| JNull)
    /\ Meta.artist m = (get t "artist" ||| get t "albumartist" ||| get t "album_artist"
                        ||| get t "composer" ||| JNull)
    /\ Meta.genre m = (get t "genre" ||| JNull)
    /\ Meta.year m = year_or_null (get t "year" ||| get t "date").
Proof.
  unfold extract, tags_of.
  destruct (keysToLower _) as [s|e]; [|discriminate].
  destruct (keysToLower (get info "format")) as [f|e]; [|discriminate].
  cbn [bind].
  destruct (if truthy (get f "tags") then keysToLower (get f "tags") else Return (JObj []))
    as [t|e]; [|discriminate].
  cbn [bind].
  destruct (split_first _) as [fmt|e]; [|discriminate].
  cbn [bind]. intros [= <-]. exists t. cbn. repeat split.
Qed.

(** X10. [ffprobe_success] does all or nothing: it returns a record and
    assigns that record under the identifier, or it throws an [Error] and
    leaves the cache exactly as it was; on a result object the error is
    always an ExtractionError. *)
Theorem ffprobe_success_all_or_nothing (path : string) (obj : Json) (cache : Cache) :
  (exists m, ffprobe_success path obj cache
             = (Return (Val (VMeta m)), cache_set path (VMeta m) cache))
  \/ (exists err,
        ffprobe_success path obj cache = (Throw (Val (VError err)), cache)
        /\ (err_kind err = ExtractionError
            \/ (err_kind err = TypeError /\ (obj = JUndef \/ obj = JNull)))).
Proof.
  destruct (ffprobe_success path obj cache) as [[v|e] cache'] eqn:Hs.
  - apply ffprobe_success_Return in Hs as (m & -> & -> & _). left. eauto.
  - right. unfold ffprobe_success in Hs.
    destruct obj;
      try (injection Hs as <- <-; eexists; split; [reflexivity|]; right; auto; fail);
      (destruct (truthy (tryJsonParse _)) in Hs; cbn [negb] in Hs;
       [|injection Hs as <- <-; eexists; split; [reflexivity|by left]];
       destruct (incomplete _) in Hs;
       [injection Hs as <- <-; eexists; split; [reflexivity|by left]|];
       destruct (extract _) in Hs; [discriminate|];
       injection Hs as <- <-; eexists; split; [reflexivity|by left]).
Qed.

(** X11. A record that is returned has a codec that is null or a string
    in lower case, a format that is a string in lower case with no comma,
    numeric fields and a year that are null or numbers other than zero,
    and text fields that are null or truthy: an empty tag is reported as
    null. *)
Theorem returned_record_shape (path : string) (obj : Json) (cache cache' : Cache)
    (m : Meta.t) :
  ffprobe_success path obj cache = (Return (Val (VMeta m)), cache') ->
  (Meta.codec m = JNull \/ lower_string (Meta.codec m))
  /\ (exists s, Meta.format m = JStr s /\ toLowerCase s = s /\ has_comma s = false)
  /\ (forall fld, null_or_nonzero (project fld m))
  /\ null_or_nonzero (Meta.year m)
  /\ (forall fld, null_or_truthy (project_text fld m)).
Proof.
  intros Hok.
  apply ffprobe_success_Return in Hok as (m' & [= <-] & _ & Hex & _).
  pose proof (extract_tags _ _ Hex) as (t & _ & Htitle & Halbum & Hartist & Hgenre & Hyear).
  apply extract_Return in Hex
    as (s & f & _ & fmt & _ & _ & _ & Hfmt & Hcodec & Hformat & Hnum & _).
  split; [|split; [|split; [|split]]].
  - rewrite Hcodec. unfold toLower. destruct (get s "codec_name"); try (by left).
    right. eexists. split; [reflexivity|apply toLowerCase_idem].
  - exists (split_comma_first fmt). split; [exact Hformat|].
    split; [|apply split_comma_first_no_comma].
    apply split_comma_first_lower.
    unfold toLower in Hfmt. destruct (get f "format_name"); try discriminate.
    injection Hfmt as <-. apply toLowerCase_idem.
  - intros fld. rewrite Hnum. apply parseInt_or_null_shape.
  - rewrite Hyear. apply year_or_null_shape.
  - intros []; cbn [project_text].
    + rewrite Htitle. apply js_or_shape, null_shape.
    + rewrite Halbum. apply js_or_shape, null_shape.
    + rewrite Hartist. apply js_or_shape, null_shape.
    + rewrite Hgenre. apply js_or_shape, null_shape.
Qed.

(** X12. When the format block has no tags, the title, the album, the
    artist, the genre and the year of the record are all null. *)
Theorem without_tags_tag_fields_are_null (info : Json) (m : Meta.t) (f : Json) :
  extract info = Return m ->
  keysToLower (get info "format") = Return f ->
  truthy (get f "tags") = false ->
  (forall fld, project_text fld m = JNull) /\ Meta.year m = JNull.
Proof.
  intros Hex Hf Htags.
  apply extract_tags in Hex as (t & Ht & Htitle & Halbum & Hartist & Hgenre & Hyear).
  unfold tags_of in Ht. rewrite Hf in Ht. cbn [bind] in Ht. rewrite Htags in Ht.
  injection Ht as <-.
  split; [intros []; cbn [project_text]|]; by subst.
Qed.

Lemma year_tag_table : forallb year_tag_ok four_digit_years = true.
Proof. vm_compute. reflexivity. Qed.

Lemma year_tag_ok_range y : 0 <= y <= 9999 -> year_tag_ok y = true.
Proof.
  intros Hy. pose proof year_tag_table as Htab.
  rewrite List.forallb_forall in Htab. apply Htab.
  unfold four_digit_years. apply List.in_map_iff.
  exists (Z.to_nat y). split; [lia|].
  apply List.in_seq. lia.
Qed.

(** X13. A date tag that is a year alone, of four digits from 0000 to
    9999, is read as midnight UTC of the first of January, and the year
    of the record is the local year of that instant, or null when that
    local year is 0: for a host at or ahead of UTC the year of the tag,
    and null for the tag 0000; for a host behind UTC the year before,
    and null for the tag 0001. *)
Theorem year_only_tag_follows_local_zone (info : Json) (m : Meta.t) (t : Json) (y : Z) :
  extract info = Return m ->
  tags_of info = Return t ->
  (get t "year" ||| get t "date") = JStr (four_digits y) ->
  0 <= y <= 9999 ->
  (forall u, - msPerDay < LocalTZA u < msPerDay) ->
  Meta.year m
  = (JNum (if LocalTZA (days_from_civil y 1 1 * msPerDay) <? 0 then y - 1 else y) ||| JNull)
  /\ (0 <= LocalTZA (days_from_civil y 1 1 * msPerDay) ->
      Meta.year m = if y =? 0 then JNull else JNum y)
  /\ (LocalTZA (days_from_civil y 1 1 * msPerDay) < 0 ->
      Meta.year m = if y =? 1 then JNull else JNum (y - 1)).
Proof.
  intros Hex Ht Htag Hy Htz.
  apply extract_tags in Hex as (t' & Ht' & _ & _ & _ & _ & Hyear).
  rewrite Ht in Ht'. injection Ht' as <-.
  rewrite Hyear, Htag.
  pose proof (year_tag_ok_range y Hy) as Hok. unfold year_tag_ok in Hok.
  unfold year_or_null, Date_getFullYear, Date_new, Date_parse. cbn [ToString].
  destruct (parse_iso_date (four_digits y)) as [t0|]; [|discriminate].
  apply andb_true_iff in Hok as [Hok Hprev]. apply andb_true_iff in Hok as [Ht0 Hday].
  apply Z.eqb_eq in Ht0, Hday, Hprev. subst t0.
  cbn [mbind option_bind]. unfold YearFromTime.
  set (d := days_from_civil y 1 1) in *.
  specialize (Htz (d * msPerDay)). set (delta := LocalTZA (d * msPerDay)) in *.
  unfold msPerDay in *.
  destruct (Z.ltb_spec delta 0) as [Hneg|Hpos].
  - replace ((d * 86400000 + delta) / 86400000) with (d - 1)
      by (Z.div_mod_to_equations; lia).
    rewrite Hprev. split; [done|]. split; [lia|]. intros _.
    unfold js_or. cbn.
    destruct (Z.eqb_spec (y - 1) 0), (Z.eqb_spec y 1); try lia; reflexivity.
  - replace ((d * 86400000 + delta) / 86400000) with d
      by (Z.div_mod_to_equations; lia).
    rewrite Hday. split; [done|]. split; [|lia]. intros _.
    unfold js_or. cbn.
    destruct (Z.eqb_spec y 0); reflexivity.
Qed.

Lemma append_cons c s t : String c s +:+ t = String c (s +:+ t).
Proof. reflexivity. Qed.

Lemma append_nil t : "" +:+ t = t.
Proof. reflexivity. Qed.

Lemma read_digits_cut ds c r :
  all_digits ds = true -> digit_value 10 c = None ->
  forall acc, read_digits 10 (ds +:+ String c r) acc = read_digits 10 ds acc.
Proof.
  intros Hds Hc. induction ds as [|c1 ds' IH]; intros acc.
  - rewrite append_nil. cbn [read_digits]. by rewrite Hc.
  - rewrite append_cons. cbn [read_digits].
    cbn [all_digits] in Hds. destruct (digit_value 10 c1); [|discriminate]. by apply IH.
Qed.

(** A string of digits followed by a point is read by [parseInt] as the
    digits alone. *)
Lemma parseInt_cut ds r :
  all_digits ds = true ->
  parseInt (JStr (ds +:+ String "." r)) = parseInt (JStr ds).
Proof.
  intros Hds.
  assert (Hpoint : digit_value 10 "." = None) by reflexivity.
  destruct ds as [|c1 ds']; [reflexivity|].
  pose proof (read_digits_cut (String c1 ds') "." r Hds Hpoint) as Hcut.
  rewrite append_cons in *.
  cbn [all_digits] in Hds.
  destruct c1 as [[] [] [] [] [] [] [] []]; try discriminate Hds.
  all: unfold parseInt; cbn [ToString].
  all: match goal with
       | |- context [skip_whitespace (String ?c (?a +:+ ?b))] =>
           change (skip_whitespace (String c (a +:+ b))) with (String c (a +:+ b))
       end.
  all: match goal with
       | |- context [skip_whitespace (String ?c ?s)] =>
           change (skip_whitespace (String c s)) with (String c s)
       end.
  all: cbv beta iota zeta.
  all: try (rewrite Hcut; reflexivity).
  (* the first digit is 0: the second character decides about the prefix 0x *)
  destruct ds' as [|c2 ds'']; [rewrite append_nil in *; cbv beta iota zeta;
                               rewrite Hcut; reflexivity|].
  rewrite append_cons in *.
  cbn [all_digits] in Hds.
  destruct c2 as [[] [] [] [] [] [] [] []]; try discriminate Hds.
  all: cbv beta iota zeta; rewrite Hcut; reflexivity.
Qed.

(** X14. A duration with a fraction is cut at the point: the record holds
    the whole seconds before it, and null when there are none, as for
    every duration below one second. *)
Theorem duration_is_cut_at_the_point (info : Json) (m : Meta.t) (s : Json)
    (ds frac : string) :
  extract info = Return m ->
  keysToLower (first_stream info) = Return s ->
  get s "duration" = JStr (ds +:+ String "." frac) ->
  all_digits ds = true ->
  Meta.duration m = parseInt_or_null (JStr ds)
  /\ (parseInt (JStr ds) = Some 0 -> Meta.duration m = JNull).
Proof.
  intros Hex Hs Hdur Hds.
  apply extract_Return in Hex as (s' & f & _ & _ & Hs' & _ & _ & _ & _ & _ & Hnum & _).
  rewrite Hs in Hs'. injection Hs' as <-.
  specialize (Hnum Duration). cbn [project source] in Hnum.
  assert (Heq : Meta.duration m = parseInt_or_null (JStr ds)).
  { rewrite Hnum, Hdur. unfold parseInt_or_null. by rewrite parseInt_cut. }
  split; [exact Heq|]. intros Hzero. rewrite Heq. by apply parseInt_or_null_zero.
Qed.
End ExtractorMore.

Section Rejections.
Context `{Host}.

(** What both entry points answer with while an own entry is an
    [Error]. *)
Lemma failed_entry_replayed id e timeout out st :
  own (ffprobe_cache st) !! id = Some (VError e) ->
  ffprobe_sync id timeout out st = (Throw (Val (VError e)), st)
  /\ trace (snd (ffprobe id timeout st)) = trace st
  /\ (hasOwn_callable (ffprobe_cache st) = true ->
      exists q,
        fst (ffprobe id timeout st) = Return (Val (VPromise q))
        /\ promises st !! q = None
        /\ outcome (snd (ffprobe id timeout st)) q = Some (Throw (Val (VError e)))).
Proof.
  intros Hc.
  assert (Hv : is_Resolved (VError e) \/ is_Failed (VError e)) by (right; by exists e).
  split; [|split].
  - by rewrite (ffprobe_sync_settled id timeout out st _ Hc Hv).
  - apply ffprobe_hit. eauto.
  - intros Hcall. rewrite (ffprobe_failed id timeout e st Hcall Hc). cbn [fst snd].
    exists (length (promises st)). split; [done|]. split.
    + apply lookup_ge_None. lia.
    + unfold outcome. cbn [promises]. by rewrite list_lookup_middle.
Qed.

(** X15. When the tool fails on an identifier other than [__proto__],
    while the prototype of the cache is no [Error] and no array, the
    pending callers get an InvocationError that names the identifier
    and becomes the entry of the cache.  From then on, after any calls,
    ends of the tool on other identifiers and time short of a clear, and
    until an invocation on the same identifier that was started earlier
    ends or the timer fires, every call of [ffprobe.sync] on the
    identifier throws that same error and every call of [ffprobe] that
    gets past [hasOwnProperty] answers with a new promise that is
    already rejected with it; the tool is not run. *)
Theorem rejection_reaches_all_callers (p : nat) (id : string) (props : list (string * Json))
    (timeout : Json) (out' : SyncOutcome) (evs : list Event) (st : State) :
  promises st !! p = Some (Pending id) ->
  id <> "__proto__" ->
  tame (ffprobe_cache st) = true ->
  quiet id evs (settle p (Throw (JObj props)) st) = true ->
  exists err,
    err_kind err = InvocationError
    /\ err_where err = Some id
    /\ outcome (settle p (Throw (JObj props)) st) p = Some (Throw (Val (VError err)))
    /\ own (ffprobe_cache (snd (run evs (settle p (Throw (JObj props)) st)))) !! id
       = Some (VError err)
    /\ ffprobe_sync id timeout out' (snd (run evs (settle p (Throw (JObj props)) st)))
       = (Throw (Val (VError err)), snd (run evs (settle p (Throw (JObj props)) st)))
    /\ trace (snd (ffprobe id timeout (snd (run evs (settle p (Throw (JObj props)) st)))))
       = trace (snd (run evs (settle p (Throw (JObj props)) st)))
    /\ (hasOwn_callable
          (ffprobe_cache (snd (run evs (settle p (Throw (JObj props)) st)))) = true ->
        exists q,
          fst (ffprobe id timeout (snd (run evs (settle p (Throw (JObj props)) st))))
          = Return (Val (VPromise q))
          /\ promises (snd (run evs (settle p (Throw (JObj props)) st))) !! q = None
          /\ outcome (snd (ffprobe id timeout
                             (snd (run evs (settle p (Throw (JObj props)) st))))) q
             = Some (Throw (Val (VError err)))).
Proof.
  intros Hp Hid _ Hq.
  pose proof (outcome_settle p id (Throw (JObj props)) st Hp) as Hout.
  pose proof (settle_pending p id (Throw (JObj props)) st Hp) as Hset.
  destruct (ffprobe_fail_object id props (ffprobe_cache st)) as (err & Hk & Hw & Hf).
  cbv beta iota in Hout, Hset. rewrite Hf in Hout, Hset. cbn [fst snd] in Hout, Hset.
  set (st' := settle p (Throw (JObj props)) st) in *.
  assert (Hc : own (ffprobe_cache st') !! id = Some (VError err)).
  { rewrite Hset. cbn [ffprobe_cache]. rewrite cache_set_plain by exact Hid.
    apply lookup_insert_eq. }
  assert (Hv : is_Resolved (VError err) \/ is_Failed (VError err)) by (right; by exists err).
  pose proof (run_keeps_settled id (VError err) evs st' Hc Hv Hq) as Hc2.
  destruct (failed_entry_replayed id err timeout out' _ Hc2) as (Hsync & Htr & Hprobe).
  exists err. split; [exact Hk|]. split; [exact Hw|]. split; [exact Hout|].
  split; [exact Hc2|]. split; [exact Hsync|]. split; [exact Htr|exact Hprobe].
Qed.
End Rejections.

Section BlockingErrors.
Context `{Host}.

(** X16. An [Error] that the blocking collaborator throws, on an
    identifier other than [__proto__] under which the cache, whose
    prototype is no [Error] and no array, reads nothing truthy or a
    promise, is thrown to the caller and becomes the
    entry of the cache.  From then on, after any calls, ends of the tool
    on other identifiers and time short of a clear, and until an
    invocation on the same identifier that was started earlier ends or
    the timer fires, every call of [ffprobe.sync] on the identifier
    throws it again and every call of [ffprobe] that gets past
    [hasOwnProperty] answers with a new promise rejected with it; the
    tool is not run. *)
Theorem blocking_error_is_replayed (id : string) (timeout timeout' : Json) (e : JsError)
    (out' : SyncOutcome) (evs : list Event) (st : State) :
  id <> "__proto__" ->
  tame (ffprobe_cache st) = true ->
  falsy (cache_get (ffprobe_cache st) id) || is_promise (cache_get (ffprobe_cache st) id)
  = true ->
  quiet id evs (snd (ffprobe_sync id timeout (Throw (VError e)) st)) = true ->
  fst (ffprobe_sync id timeout (Throw (VError e)) st) = Throw (Val (VError e))
  /\ own (ffprobe_cache
            (snd (run evs (snd (ffprobe_sync id timeout (Throw (VError e)) st))))) !! id
     = Some (VError e)
  /\ ffprobe_sync id timeout' out'
       (snd (run evs (snd (ffprobe_sync id timeout (Throw (VError e)) st))))
     = (Throw (Val (VError e)),
        snd (run evs (snd (ffprobe_sync id timeout (Throw (VError e)) st))))
  /\ trace (snd (ffprobe id timeout'
                   (snd (run evs (snd (ffprobe_sync id timeout (Throw (VError e)) st))))))
     = trace (snd (run evs (snd (ffprobe_sync id timeout (Throw (VError e)) st))))
  /\ (hasOwn_callable
        (ffprobe_cache
           (snd (run evs (snd (ffprobe_sync id timeout (Throw (VError e)) st))))) = true ->
      exists q,
        fst (ffprobe id timeout'
               (snd (run evs (snd (ffprobe_sync id timeout (Throw (VError e)) st)))))
        = Return (Val (VPromise q))
        /\ promises (snd (run evs (snd (ffprobe_sync id timeout (Throw (VError e)) st))))
             !! q = None
        /\ outcome (snd (ffprobe id timeout'
                           (snd (run evs
                                   (snd (ffprobe_sync id timeout (Throw (VError e)) st))))))
                   q
           = Some (Throw (Val (VError e)))).
Proof.
  intros Hid _ Hx.
  destruct (ffprobe_sync_state id timeout (Throw (VError e)) st) as [[Hx' _]|[_ ->]];
    [congruence|].
  cbn [fst snd instanceof_Error].
  set (st1 := mkState _ _ _ _). intros Hq.
  assert (Hc1 : own (ffprobe_cache st1) !! id = Some (VError e)).
  { unfold st1. cbn [ffprobe_cache]. rewrite cache_set_plain by exact Hid.
    apply lookup_insert_eq. }
  assert (Hv : is_Resolved (VError e) \/ is_Failed (VError e)) by (right; by exists e).
  pose proof (run_keeps_settled id (VError e) evs st1 Hc1 Hv Hq) as Hc2.
  destruct (failed_entry_replayed id e timeout' out' _ Hc2) as (Hsync & Htr & Hprobe).
  split; [reflexivity|]. split; [exact Hc2|]. split; [exact Hsync|].
  split; [exact Htr|exact Hprobe].
Qed.
End BlockingErrors.

Lemma ffprobe_sync_answers_with_entry_witness :
  "constructor" <> "__proto__"
  /\ tame (ffprobe_cache initial) = true
  /\ fst (@ffprobe_sync (host_of sample_info) "constructor" JUndef
            (Return (VData sample_obj)) initial)
     = Return (Native "Object.prototype.constructor")
  /\ fst (@ffprobe_sync (host_of sample_info) "constructor" JUndef
            (Return (VData sample_obj)) initial)
     = (if instanceof_Error
             (@cache_get (host_of sample_info)
                (ffprobe_cache (snd (@ffprobe_sync (host_of sample_info) "constructor" JUndef
                                       (Return (VData sample_obj)) initial)))
                "constructor")
        then Throw (@cache_get (host_of sample_info)
                      (ffprobe_cache
                         (snd (@ffprobe_sync (host_of sample_info) "constructor" JUndef
                                 (Return (VData sample_obj)) initial)))
                      "constructor")
        else Return (@cache_get (host_of sample_info)
                       (ffprobe_cache
                          (snd (@ffprobe_sync (host_of sample_info) "constructor" JUndef
                                  (Return (VData sample_obj)) initial)))
                       "constructor")).
Proof.
  assert (Hne : "constructor" <> "__proto__") by discriminate.
  assert (Ht : tame (ffprobe_cache initial) = true) by reflexivity.
  split; [exact Hne|]. split; [exact Ht|]. split; [reflexivity|].
  exact (@ffprobe_sync_answers_with_entry (host_of sample_info) "constructor" JUndef
           (Return (VData sample_obj)) initial Hne Ht).
Defined.

Lemma falsy_entry_is_probed_again_witness :
  own (ffprobe_cache after_empty_output) !! "a.mp3" = Some (VData (JStr ""))
  /\ falsy (VData (JStr "")) = true
  /\ trace (snd (@ffprobe (host_of sample_info) "a.mp3" JUndef after_empty_output))
     = trace after_empty_output
  /\ trace (snd (@ffprobe_sync (host_of sample_info) "a.mp3" JUndef
                   (Return (VData sample_obj)) after_empty_output))
     = trace after_empty_output
       ++ [Started Blocking (getArgs "a.mp3") JUndef; Finished Blocking (getArgs "a.mp3")]
  /\ own (ffprobe_cache
            (snd (@ffprobe_sync (host_of sample_info) "a.mp3" JUndef
                    (Return (VData sample_obj)) after_empty_output)))
       !! "a.mp3"
     = Some (VData sample_obj).
Proof.
  assert (Hc : own (ffprobe_cache after_empty_output) !! "a.mp3" = Some (VData (JStr "")))
    by reflexivity.
  assert (Hf : falsy (VData (JStr "")) = true) by reflexivity.
  split; [exact Hc|]. split; [exact Hf|].
  exact (proj2 (@falsy_entry_is_probed_again (host_of sample_info) "a.mp3" (VData (JStr ""))
                  JUndef (Return (VData sample_obj)) after_empty_output Hc Hf)).
Defined.

Lemma fulfilled_record_is_served_witness :
  promises pending_state !! 0%nat = Some (Pending "a.mp3")
  /\ outcome (@settle (host_of sample_info) 0 (Return sample_obj) pending_state) 0
     = Some (Return (Val (VMeta sample_meta)))
  /\ @ffprobe (host_of sample_info) "a.mp3" JUndef
       (@settle (host_of sample_info) 0 (Return sample_obj) pending_state)
     = (Return (Val (VMeta sample_meta)),
        @settle (host_of sample_info) 0 (Return sample_obj) pending_state).
Proof.
  assert (Hp : promises pending_state !! 0%nat = Some (Pending "a.mp3")) by reflexivity.
  assert (Ho : outcome (@settle (host_of sample_info) 0 (Return sample_obj) pending_state) 0
               = Some (Return (Val (VMeta sample_meta)))) by reflexivity.
  destruct (@fulfilled_record_is_served (host_of sample_info) 0 "a.mp3" (Return sample_obj)
              pending_state (Val (VMeta sample_meta)) JUndef (Return (VData sample_obj))
              Hp Ho)
    as (_ & _ & _ & Hprobe).
  split; [exact Hp|]. split; [exact Ho|].
  apply Hprobe; [discriminate|reflexivity|reflexivity].
Defined.



Lemma pending_identifier_is_not_probed_again_witness :
  forallb (avoids "__proto__") clobbered_run = true
  /\ @calm (host_of sample_info) clobbered_run initial = true
  /\ promises (snd (@run (host_of sample_info) clobbered_run initial)) !! 0%nat
     = Some (Pending "a.mp3")
  /\ own (ffprobe_cache (snd (@run (host_of sample_info) clobbered_run initial))) !! "a.mp3"
     = Some (VData (JStr ""))
  /\ trace (snd (@ffprobe (host_of sample_info) "a.mp3" JUndef
                   (snd (@run (host_of sample_info) clobbered_run initial))))
     = trace (snd (@run (host_of sample_info) clobbered_run initial)).
Proof.
  assert (Hall : forallb (avoids "__proto__") clobbered_run = true) by reflexivity.
  assert (Hcalm : @calm (host_of sample_info) clobbered_run initial = true) by reflexivity.
  assert (Hp : promises (snd (@run (host_of sample_info) clobbered_run initial)) !! 0%nat
               = Some (Pending "a.mp3")) by reflexivity.
  split; [exact Hall|]. split; [exact Hcalm|]. split; [exact Hp|]. split; [reflexivity|].
  exact (proj2 (@pending_identifier_is_not_probed_again (host_of sample_info) clobbered_run
                  0 "a.mp3" JUndef Hall Hcalm Hp)).
Defined.

Lemma returned_record_shape_witness :
  @ffprobe_success (host_of sample_info) "live.m3u8" sample_obj empty_cache
    = (Return (Val (VMeta sample_meta)),
       mkCache {["live.m3u8" := VMeta sample_meta]} ProtoObject)
  /\ (exists s, Meta.format sample_meta = JStr s /\ toLowerCase s = s /\ has_comma s = false)
  /\ (forall fld, null_or_nonzero (project fld sample_meta))
  /\ (forall fld, null_or_truthy (project_text fld sample_meta)).
Proof.
  assert (Hrun : @ffprobe_success (host_of sample_info) "live.m3u8" sample_obj empty_cache
                 = (Return (Val (VMeta sample_meta)),
                    mkCache {["live.m3u8" := VMeta sample_meta]} ProtoObject))
    by reflexivity.
  destruct (@returned_record_shape (host_of sample_info) "live.m3u8" sample_obj empty_cache _
              sample_meta Hrun) as (_ & Hfmt & Hnum & _ & Htext).
  split; [exact Hrun|]. split; [exact Hfmt|]. split; [exact Hnum|exact Htext].
Defined.

Lemma without_tags_tag_fields_are_null_witness :
  @extract (host_of bare_info) bare_info = Return bare_meta
  /\ keysToLower (get bare_info "format") = Return (JObj [("format_name", JStr "WAV,w64")])
  /\ truthy (get (JObj [("format_name", JStr "WAV,w64")]) "tags") = false
  /\ (forall fld, project_text fld bare_meta = JNull)
  /\ Meta.year bare_meta = JNull.
Proof.
  split; [reflexivity|]. split; [reflexivity|]. split; [reflexivity|].
  apply (@without_tags_tag_fields_are_null (host_of bare_info) bare_info bare_meta
           (JObj [("format_name", JStr "WAV,w64")])); reflexivity.
Defined.

Lemma year_only_tag_follows_local_zone_witness :
  @extract (west_host (parser_of year_info)) year_info = Return year_meta
  /\ tags_of year_info = Return (JObj [("date", JStr "2001"); ("title", JStr "")])
  /\ (get (JObj [("date", JStr "2001"); ("title", JStr "")]) "year"
      ||| get (JObj [("date", JStr "2001"); ("title", JStr "")]) "date")
     = JStr (four_digits 2001)
  /\ 0 <= 2001 <= 9999
  /\ (forall u, - msPerDay < @LocalTZA (west_host (parser_of year_info)) u < msPerDay)
  /\ Meta.year year_meta = JNum 2000.
Proof.
  assert (Htz : forall u,
             - msPerDay < @LocalTZA (west_host (parser_of year_info)) u < msPerDay)
    by (intros u; cbn; unfold msPerDay; lia).
  split; [reflexivity|]. split; [reflexivity|]. split; [reflexivity|].
  split; [lia|]. split; [exact Htz|].
  exact (proj1 (@year_only_tag_follows_local_zone (west_host (parser_of year_info)) year_info
                  year_meta (JObj [("date", JStr "2001"); ("title", JStr "")]) 2001
                  eq_refl eq_refl eq_refl ltac:(lia) Htz)).
Defined.

Lemma duration_is_cut_at_the_point_witness :
  @extract (host_of bare_info) bare_info = Return bare_meta
  /\ keysToLower (first_stream bare_info)
     = Return (JObj [("codec_name", JStr "PCM_S16LE"); ("duration", JStr "0.52")])
  /\ get (JObj [("codec_name", JStr "PCM_S16LE"); ("duration", JStr "0.52")]) "duration"
     = JStr ("0" +:+ String "." "52")
  /\ all_digits "0" = true
  /\ Meta.duration bare_meta = JNull.
Proof.
  split; [reflexivity|]. split; [reflexivity|]. split; [reflexivity|].
  split; [reflexivity|].
  apply (@duration_is_cut_at_the_point (host_of bare_info) bare_info bare_meta
           (JObj [("codec_name", JStr "PCM_S16LE"); ("duration", JStr "0.52")]) "0" "52");
    reflexivity.
Defined.

Lemma rejection_reaches_all_callers_witness :
  promises pending_state !! 0%nat = Some (Pending "a.mp3")
  /\ "a.mp3" <> "__proto__"
  /\ tame (ffprobe_cache pending_state) = true
  /\ @quiet (host_of sample_info) "a.mp3" idle_calls after_rejection = true
  /\ exists err,
       err_kind err = InvocationError
       /\ own (ffprobe_cache (snd (@run (host_of sample_info) idle_calls after_rejection)))
            !! "a.mp3" = Some (VError err)
       /\ @ffprobe_sync (host_of sample_info) "a.mp3" JUndef (Return (VData sample_obj))
            (snd (@run (host_of sample_info) idle_calls after_rejection))
          = (Throw (Val (VError err)),
             snd (@run (host_of sample_info) idle_calls after_rejection)).
Proof.
  assert (Hp : promises pending_state !! 0%nat = Some (Pending "a.mp3")) by reflexivity.
  assert (Hne : "a.mp3" <> "__proto__") by discriminate.
  assert (Ht : tame (ffprobe_cache pending_state) = true) by reflexivity.
  assert (Hq : @quiet (host_of sample_info) "a.mp3" idle_calls after_rejection = true)
    by reflexivity.
  split; [exact Hp|]. split; [exact Hne|]. split; [exact Ht|]. split; [exact Hq|].
  destruct (@rejection_reaches_all_callers (host_of sample_info) 0 "a.mp3"
              [("error", JStr "Command failed"); ("stderr", JStr "No such file or directory")]
              JUndef (Return (VData sample_obj)) idle_calls pending_state Hp Hne Ht Hq)
    as (err & Hk & _ & _ & Hc & Hsync & _).
  exists err. split; [exact Hk|]. split; [exact Hc|exact Hsync].
Defined.

Lemma blocking_error_is_replayed_witness :
  "a.mp3" <> "__proto__"
  /\ tame (ffprobe_cache pending_state) = true
  /\ falsy (@cache_get (host_of sample_info) (ffprobe_cache pending_state) "a.mp3")
     || is_promise (@cache_get (host_of sample_info) (ffprobe_cache pending_state) "a.mp3")
     = true
  /\ @quiet (host_of sample_info) "a.mp3" idle_calls
       (snd (@ffprobe_sync (host_of sample_info) "a.mp3" JUndef
               (Throw (VError timeout_error)) pending_state)) = true
  /\ fst (@ffprobe_sync (host_of sample_info) "a.mp3" JUndef
            (Throw (VError timeout_error)) pending_state)
     = Throw (Val (VError timeout_error))
  /\ @ffprobe_sync (host_of sample_info) "a.mp3" (JNum 100) (Return (VData sample_obj))
       (snd (@run (host_of sample_info) idle_calls
               (snd (@ffprobe_sync (host_of sample_info) "a.mp3" JUndef
                       (Throw (VError timeout_error)) pending_state))))
     = (Throw (Val (VError timeout_error)),
        snd (@run (host_of sample_info) idle_calls
               (snd (@ffprobe_sync (host_of sample_info) "a.mp3" JUndef
                       (Throw (VError timeout_error)) pending_state)))).
Proof.
  assert (Hne : "a.mp3" <> "__proto__") by discriminate.
  assert (Ht : tame (ffprobe_cache pending_state) = true) by reflexivity.
  assert (Hx : falsy (@cache_get (host_of sample_info) (ffprobe_cache pending_state)
                        "a.mp3")
               || is_promise (@cache_get (host_of sample_info)
                                (ffprobe_cache pending_state) "a.mp3")
               = true)
    by reflexivity.
  assert (Hq : @quiet (host_of sample_info) "a.mp3" idle_calls
                 (snd (@ffprobe_sync (host_of sample_info) "a.mp3" JUndef
                         (Throw (VError timeout_error)) pending_state)) = true)
    by reflexivity.
  split; [exact Hne|]. split; [exact Ht|]. split; [exact Hx|]. split; [exact Hq|].
  destruct (@blocking_error_is_replayed (host_of sample_info) "a.mp3" JUndef (JNum 100)
              timeout_error (Return (VData sample_obj)) idle_calls pending_state
              Hne Ht Hx Hq) as (Hfst & _ & Hsync & _).
  split; [exact Hfst|exact Hsync].
Defined.
